(** * The locust launcher ([locust/main.py]): model and verified properties

    The development embeds the launcher of the load-testing harness:
    locustfile resolution ([find_locustfile]), the dynamic load that
    temporarily rearranges [sys.path] ([load_locustfile]), the scenario
    predicate ([is_locust]) and the topology bootstrap ([main]).

    Python strings are [string]; dictionaries are [gmap string _];
    [sys.path] is a [list string] held in an explicit world state; the
    effects of [main] (printing, spawning greenlets, constructing runners,
    sleeping, exiting) are recorded as a trace of events by a small
    state-and-exception monad. *)

From Stdlib Require Import ZArith Ascii Lia.
From stdpp Require Import base option list strings gmap fin_maps.



(** ** Python [str] methods used by the launcher and by [posixpath] *)

Module PyStr.

(** [s.startswith(p)] *)
Fixpoint startswith (s p : string) {struct p} : bool :=
  match p with
  | EmptyString => true
  | String b p' =>
      match s with
      | EmptyString => false
      | String a s' => Ascii.eqb a b && startswith s' p'
      end
  end.

(** [s.endswith(suf)]: [s] is [suf], or its tail ends with [suf]. *)
Fixpoint endswith (s suf : string) : bool :=
  String.eqb s suf ||
  match s with
  | EmptyString => false
  | String _ s' => endswith s' suf
  end.

(** [s.rfind(c)] for a one-character [c]: highest index, or [-1]. *)
Fixpoint rfind (s : string) (c : ascii) : Z :=
  match s with
  | EmptyString => (-1)%Z
  | String a s' =>
      let r := rfind s' c in
      if (0 <=? r)%Z then (r + 1)%Z
      else if Ascii.eqb a c then 0%Z else (-1)%Z
  end.

(** The slices [s[:i]] and [s[i:]] for [0 <= i]. *)
Fixpoint take (i : nat) (s : string) : string :=
  match i, s with
  | S i', String a s' => String a (take i' s')
  | _, _ => EmptyString
  end.

Fixpoint drop (i : nat) (s : string) : string :=
  match i, s with
  | S i', String _ s' => drop i' s'
  | _, _ => s
  end.

(** [c * n] *)
Fixpoint mul (c : ascii) (n : nat) : string :=
  match n with
  | O => EmptyString
  | S n' => String c (mul c n')
  end.

(** [s.rstrip(c)] for a one-character [c]. *)
Fixpoint rstrip (s : string) (c : ascii) : string :=
  match s with
  | EmptyString => EmptyString
  | String a s' =>
      match rstrip s' c with
      | EmptyString => if Ascii.eqb a c then EmptyString else String a EmptyString
      | r => String a r
      end
  end.

(** [s.split(c)] for a one-character separator. *)
Fixpoint split (s : string) (c : ascii) : list string :=
  match s with
  | EmptyString => [EmptyString]
  | String a s' =>
      if Ascii.eqb a c then EmptyString :: split s' c
      else match split s' c with
           | h :: t => String a h :: t
           | [] => [String a EmptyString]
           end
  end.

(** [sep.join(l)] *)
Fixpoint join (sep : string) (l : list string) : string :=
  match l with
  | [] => EmptyString
  | [x] => x
  | x :: l' => x +:+ sep +:+ join sep l'
  end.

(** [c in s] for a one-character [c]. *)
Fixpoint contains (s : string) (c : ascii) : bool :=
  match s with
  | EmptyString => false
  | String a s' => Ascii.eqb a c || contains s' c
  end.

End PyStr.

(** ** [posixpath] (the [os.path] of the platforms the launcher runs on) *)

Module posixpath.

Definition sep : ascii := "/"%char.
Definition extsep : ascii := "."%char.

(** [isabs(s)] *)
Definition isabs (s : string) : bool := PyStr.startswith s "/".

(** [join(a, b)] *)
Definition join (a b : string) : string :=
  if PyStr.startswith b "/" then b
  else if String.eqb a EmptyString || PyStr.endswith a "/" then a +:+ b
  else a +:+ "/" +:+ b.

(** [split(p)]: head is everything up to the last slash, with the
    trailing slashes stripped unless it is all slashes. *)
Definition split (p : string) : string * string :=
  let i := Z.to_nat (PyStr.rfind p sep + 1)%Z in
  let head := PyStr.take i p in
  let tail := PyStr.drop i p in
  let head :=
    if negb (String.eqb head EmptyString)
       && negb (String.eqb head (PyStr.mul sep (String.length head)))
    then PyStr.rstrip head sep else head in
  (head, tail).

(** [dirname(p)] *)
Definition dirname (p : string) : string :=
  let i := Z.to_nat (PyStr.rfind p sep + 1)%Z in
  let head := PyStr.take i p in
  if negb (String.eqb head EmptyString)
     && negb (String.eqb head (PyStr.mul sep (String.length head)))
  then PyStr.rstrip head sep else head.

(** The loop of [_splitext] that skips leading dots of the file name:
    is there a character other than the dot in [p[filenameIndex:dotIndex]]? *)
Fixpoint has_non_dot (s : string) : bool :=
  match s with
  | EmptyString => false
  | String a s' => negb (Ascii.eqb a extsep) || has_non_dot s'
  end.

(** [splitext(p)] *)
Definition splitext (p : string) : string * string :=
  let sepIndex := PyStr.rfind p sep in
  let dotIndex := PyStr.rfind p extsep in
  if (sepIndex <? dotIndex)%Z
     && has_non_dot (PyStr.take (Z.to_nat (dotIndex - (sepIndex + 1))%Z)
                                (PyStr.drop (Z.to_nat (sepIndex + 1)%Z) p))
  then (PyStr.take (Z.to_nat dotIndex) p, PyStr.drop (Z.to_nat dotIndex) p)
  else (p, EmptyString).

(** One round of the loop of [normpath] over the components. *)
Definition normpath_step (initial_slashes : nat)
    (new_comps : list string) (comp : string) : list string :=
  if String.eqb comp EmptyString || String.eqb comp "." then new_comps
  else if negb (String.eqb comp "..")
          || (Nat.eqb initial_slashes 0 && bool_decide (new_comps = []))
          || (negb (bool_decide (new_comps = []))
              && bool_decide (last new_comps = Some ".."))
  then new_comps ++ [comp]
  else if negb (bool_decide (new_comps = [])) then removelast new_comps
  else new_comps.

(** [normpath(path)] *)
Definition normpath (path : string) : string :=
  if String.eqb path EmptyString then "."
  else
    let initial_slashes :=
      if PyStr.startswith path "/" then
        if PyStr.startswith path "//" && negb (PyStr.startswith path "///")
        then 2%nat else 1%nat
      else 0%nat in
    let comps := PyStr.split path sep in
    let new_comps := fold_left (normpath_step initial_slashes) comps [] in
    let path := PyStr.join "/" new_comps in
    let path := PyStr.mul sep initial_slashes +:+ path in
    if String.eqb path EmptyString then "." else path.

(** [abspath(path)], with the working directory [os.getcwd()] explicit. *)
Definition abspath (cwd path : string) : string :=
  if isabs path then normpath path else normpath (join cwd path).

End posixpath.


(** ** Python values found in a loaded module *)

(** A class is known by its name and its base classes: two classes with
    the same name and the same bases are taken for one. *)
#[warnings="-register-all"]
Inductive pyclass : Type :=
| PyClass (cls_name : string) (cls_bases : list pyclass).

Inductive pyvalue : Type :=
| VClass (c : pyclass)
| VFunction (name : string)
| VModule (name : string)
| VInt (z : Z)
| VStr (s : string)
| VNone.

(** [a is b] on classes. *)
Fixpoint pyclass_eqb (a b : pyclass) : bool :=
  match a, b with
  | PyClass n1 bs1, PyClass n2 bs2 =>
      String.eqb n1 n2 &&
      (fix all2 (l1 l2 : list pyclass) : bool :=
         match l1, l2 with
         | [], [] => true
         | x :: l1', y :: l2' => pyclass_eqb x y && all2 l1' l2'
         | _, _ => false
         end) bs1 bs2
  end.

(** [a == b] on the values of a module. *)
Definition pyvalue_eqb (a b : pyvalue) : bool :=
  match a, b with
  | VClass c1, VClass c2 => pyclass_eqb c1 c2
  | VFunction n1, VFunction n2 => String.eqb n1 n2
  | VModule n1, VModule n2 => String.eqb n1 n2
  | VInt z1, VInt z2 => Z.eqb z1 z2
  | VStr s1, VStr s2 => String.eqb s1 s2
  | VNone, VNone => true
  | _, _ => false
  end.

(** [item in l] *)
Definition py_in (item : pyvalue) (l : list pyvalue) : bool :=
  existsb (pyvalue_eqb item) l.

(** [inspect.isclass(item)] *)
Definition isclass (item : pyvalue) : bool :=
  match item with VClass _ => true | _ => false end.

(** [issubclass(c, base)] on classes: [c] is [base] or one of the bases
    of [c] is a subclass of [base]. *)
Fixpoint class_issubclass (c base : pyclass) : bool :=
  pyclass_eqb c base ||
  match c with
  | PyClass _ bs =>
      (fix any (l : list pyclass) : bool :=
         match l with
         | [] => false
         | b :: l' => class_issubclass b base || any l'
         end) bs
  end.

(** [issubclass(item, base)]; it is only evaluated behind [isclass(item)]
    (the [and] of [is_locust] short-circuits), where it cannot raise. *)
Definition issubclass (item : pyvalue) (base : pyclass) : bool :=
  match item with VClass c => class_issubclass c base | _ => false end.

(** A module object: its [__doc__] and its [vars()]. *)
Record pymodule : Type := {
  mod_doc : option string;
  mod_vars : gmap string pyvalue;
}.

(** ** The world: [sys.path] and what the process does to the outside *)

Inductive event : Type :=
| Print (line : string)
| StderrWrite (text : string)
| SpawnWeb (locust_class : pyvalue) (hatch_rate num_clients : Z)
| SpawnPrintStats
| NewLocalLocustRunner (locust_class : pyvalue) (hatch_rate num_clients : Z)
| NewMasterLocustRunner (locust_class : pyvalue) (hatch_rate num_clients : Z)
    (redis_host : string) (redis_port : Z)
| NewSlaveLocustRunner (locust_class : pyvalue) (hatch_rate num_clients : Z)
    (redis_host : string) (redis_port : Z)
| StartHatching
| Sleep (seconds : Z).

Inductive exn : Type :=
| SystemExit (code : Z)
| IndexError
| ValueError
| KeyboardInterrupt
| ImportError (msg : string)
| OtherError (name : string).

Record world : Type := {
  sys_path : list string;
  trace : list event;
}.

(** The result of a computation: a value, a raised exception, or no answer
    within the fuel given to the ancestor walk of [find_locustfile]. *)
Inductive result (A : Type) : Type :=
| Ret (a : A)
| Raise (e : exn)
| OutOfFuel.
Arguments Ret {A} a.
Arguments Raise {A} e.
Arguments OutOfFuel {A}.

Definition Py (A : Type) : Type := world -> result A * world.

Definition ret {A : Type} (a : A) : Py A := fun w => (Ret a, w).

Definition bind {A B : Type} (m : Py A) (k : A -> Py B) : Py B :=
  fun w =>
    match m w with
    | (Ret a, w') => k a w'
    | (Raise e, w') => (Raise e, w')
    | (OutOfFuel, w') => (OutOfFuel, w')
    end.

Definition raise {A : Type} (e : exn) : Py A := fun w => (Raise e, w).

Declare Scope py_scope.
Delimit Scope py_scope with py.
Notation "x <- c ;; k" := (bind c (fun x => k))
  (at level 100, c at next level, right associativity) : py_scope.
Notation "c ;;; k" := (bind c (fun _ => k))
  (at level 100, right associativity) : py_scope.
Local Open Scope py_scope.

(** [try: body except KeyboardInterrupt, e: handler] *)
Definition try_except_KeyboardInterrupt {A : Type} (body handler : Py A) : Py A :=
  fun w =>
    match body w with
    | (Raise KeyboardInterrupt, w') => handler w'
    | r => r
    end.

Definition emit (e : event) : Py unit :=
  fun w => (Ret tt, {| sys_path := sys_path w; trace := trace w ++ [e] |}).

(** [sys.exit(code)] raises [SystemExit]. *)
Definition sys_exit {A : Type} (code : Z) : Py A := raise (SystemExit code).

(** *** Python list methods, on [sys.path] *)

(** [l.insert(i, x)] for [0 <= i]; past the end it appends. *)
Definition py_insert {A : Type} (i : nat) (x : A) (l : list A) : list A :=
  take i l ++ x :: drop i l.

(** [del l[i]] for [0 <= i]; [None] stands for [IndexError]. *)
Definition py_del {A : Type} (i : nat) (l : list A) : option (list A) :=
  if (i <? length l)%nat then Some (take i l ++ drop (S i) l) else None.

(** [l.index(x)]; [None] stands for [ValueError]. *)
Fixpoint py_index (x : string) (l : list string) : option nat :=
  match l with
  | [] => None
  | y :: l' => if String.eqb y x then Some 0%nat else S <$> py_index x l'
  end.

Definition get_sys_path : Py (list string) := fun w => (Ret (sys_path w), w).

Definition sys_path_insert (i : nat) (x : string) : Py unit :=
  fun w => (Ret tt, {| sys_path := py_insert i x (sys_path w); trace := trace w |}).

Definition sys_path_del (i : nat) : Py unit :=
  fun w =>
    match py_del i (sys_path w) with
    | Some l => (Ret tt, {| sys_path := l; trace := trace w |})
    | None => (Raise IndexError, w)
    end.

Definition sys_path_index (x : string) : Py nat :=
  fun w =>
    match py_index x (sys_path w) with
    | Some i => (Ret i, w)
    | None => (Raise ValueError, w)
    end.

(** ** What the launcher is given: file system, interpreter, command line *)

Inductive node : Type := File | Dir.

(** The parsed command line, [opts] of [parser.parse_args()]; one field
    per [dest] of [parse_options] and of [env_options]. *)
Record options : Type := {
  show_version : bool;
  list_commands : bool;
  shortlist : bool;
  print_stats : bool;
  no_web : bool;
  master : bool;
  slave : bool;
  num_clients : Z;
  hatch_rate : Z;
  redis_host : string;
  redis_port : Z;
  hosts : option string;
  locustfile : string;
}.

(** The defaults of [parse_options]; [hosts] defaults to the empty list,
    written [None]. *)
Definition default_options : options := {|
  show_version := false;
  list_commands := false;
  shortlist := false;
  print_stats := false;
  no_web := false;
  master := false;
  slave := false;
  num_clients := 1;
  hatch_rate := 1;
  redis_host := "localhost";
  redis_port := 6379;
  hosts := None;
  locustfile := "locust";
|}.

Record environment : Type := {
  (** [os.getcwd()] *)
  env_cwd : string;
  (** the file system, read at absolute normalized paths *)
  env_fs : string -> option node;
  (** [os.path.expanduser] *)
  env_expanduser : string -> string;
  (** the interpreter's import of a module by name: it reads the search
      list, runs the module's code, which may raise and may change the
      list, and yields the module object *)
  env_import : string -> list string -> result pymodule * list string;
  (** [core.Locust], the base class of all scenarios *)
  env_Locust : pyclass;
  (** [opts, args] of [parser.parse_args()] *)
  env_options : options;
  env_arguments : list string;
  (** seconds into [gevent.sleep] at which the user interrupts the
      process, if ever *)
  env_interrupt : option Z;
}.

Definition os_path_abspath (env : environment) (path : string) : string :=
  posixpath.abspath (env_cwd env) path.

(** [os.path.exists(path)]: the entry at the normalized absolute path, which
    is where the kernel arrives when the directories on the way exist and
    none of them is a symbolic link. *)
Definition os_path_exists (env : environment) (path : string) : bool :=
  match env_fs env (os_path_abspath env path) with
  | Some _ => true
  | None => false
  end.

(** [os.path.isdir(path)], read at the same place. *)
Definition os_path_isdir (env : environment) (path : string) : bool :=
  match env_fs env (os_path_abspath env path) with
  | Some Dir => true
  | _ => false
  end.

(** [__import__(name)] *)
Definition __import__ (env : environment) (name : string) : Py pymodule :=
  fun w =>
    let '(r, path') := env_import env name (sys_path w) in
    (r, {| sys_path := path'; trace := trace w |}).

(** ** [locust/main.py] *)

Definition _internals : list pyvalue := [].

(** [_is_package(path)] *)
Definition _is_package (env : environment) (path : string) : bool :=
  os_path_isdir env path
  && os_path_exists env (posixpath.join path "__init__.py").

(** The [for name in names] of the explicit-path branch of
    [find_locustfile]; [Some] is the [return]. *)
Fixpoint find_explicit (env : environment) (names : list string) : option string :=
  match names with
  | [] => None
  | name :: names' =>
      let expanded := env_expanduser env name in
      if os_path_exists env expanded
         && (PyStr.endswith name ".py" || _is_package env expanded)
      then Some (os_path_abspath env expanded)
      else find_explicit env names'
  end.

(** The [for name in names] inside the ancestor walk. *)
Fixpoint find_in_dir (env : environment) (path : string) (names : list string)
  : option string :=
  match names with
  | [] => None
  | name :: names' =>
      let joined := posixpath.join path name in
      if os_path_exists env joined
         && (PyStr.endswith name ".py" || _is_package env joined)
      then Some (os_path_abspath env joined)
      else find_in_dir env path names'
  end.

(** The [while] of [find_locustfile], with [fuel] rounds at most:
    [None] is "no answer yet", [Some r] is what the function returns. *)
Fixpoint find_upwards (env : environment) (names : list string)
    (fuel : nat) (path : string) : option (option string) :=
  match fuel with
  | O => None
  | S fuel' =>
      if negb (String.eqb (snd (posixpath.split (os_path_abspath env path))) EmptyString)
      then
        match find_in_dir env path names with
        | Some found => Some (Some found)
        | None => find_upwards env names fuel' (posixpath.join ".." path)
        end
      else Some None
  end.

(** [names] as [find_locustfile] builds it. *)
Definition candidate_names (locustfile : string) : list string :=
  let names := [locustfile] in
  if negb (PyStr.endswith locustfile ".py")
  then names ++ [locustfile +:+ ".py"]
  else names.

(** [find_locustfile(locustfile)] *)
Definition find_locustfile (env : environment) (fuel : nat) (locustfile : string)
  : option (option string) :=
  let names := candidate_names locustfile in
  if negb (String.eqb (posixpath.dirname locustfile) EmptyString)
  then Some (find_explicit env names)
  else find_upwards env names fuel ".".

(** [is_locust(tup)] *)
Definition is_locust (env : environment) (tup : string * pyvalue) : bool :=
  let '(name, item) := tup in
  isclass item
  && issubclass item (env_Locust env)
  && negb (py_in item _internals)
  && negb (PyStr.startswith name "_").

(** [load_locustfile(path)] *)
Definition load_locustfile (env : environment) (path : string)
  : Py (option string * gmap string pyvalue) :=
  let '(directory, locustfile) := posixpath.split path in
  path0 <- get_sys_path ;;
  moved <-
    (if negb (bool_decide (directory ∈ path0)) then
       sys_path_insert 0 directory ;;;
       ret (true, None)
     else
       i <- sys_path_index directory ;;
       if negb (Nat.eqb i 0) then
         sys_path_insert 0 directory ;;;
         sys_path_del (i + 1) ;;;
         ret (false, Some i)
       else ret (false, None)) ;;
  let '(added_to_path, index) := moved in
  imported <- __import__ env (fst (posixpath.splitext locustfile)) ;;
  (if added_to_path : bool then sys_path_del 0 else ret tt) ;;;
  (match index with
   | Some index => sys_path_insert (index + 1) directory ;;; sys_path_del 0
   | None => ret tt
   end) ;;;
  let locusts : gmap string pyvalue :=
    list_to_map (List.filter (is_locust env) (map_to_list (mod_vars imported))) in
  ret (mod_doc imported, locusts).

(** [l[i]] for [0 <= i] *)
Definition py_getitem {A : Type} (l : list A) (i : nat) : Py A :=
  match l !! i with
  | Some x => ret x
  | None => raise IndexError
  end.

(** An answer of [find_locustfile], or none within the fuel. *)
Definition within_fuel {A : Type} (o : option A) : Py A :=
  match o with
  | Some a => ret a
  | None => fun w => (OutOfFuel, w)
  end.

(** The line feed that ends the message written to [sys.stderr]. *)
Definition newline : string := String (ascii_of_nat 10) EmptyString.

(** [gevent.sleep(seconds)]: returns when the time has passed, unless the
    user interrupts the process before. *)
Definition gevent_sleep (env : environment) (seconds : Z) : Py unit :=
  emit (Sleep seconds) ;;;
  match env_interrupt env with
  | Some t => if (t <? seconds)%Z then raise KeyboardInterrupt else ret tt
  | None => ret tt
  end.

(** [for name in locusts: print "    " + name] *)
Fixpoint print_names (names : list string) : Py unit :=
  match names with
  | [] => ret tt
  | name :: names' => emit (Print ("    " +:+ name)) ;;; print_names names'
  end.

(** Lines 276-301 of [main]: the web monitor, the runner of the chosen
    topology, the wait and the exit. *)
Definition main_bootstrap (env : environment) (locust_class : pyvalue) : Py unit :=
  let options := env_options env in
  (if negb (no_web options) && negb (slave options) then
     emit (SpawnWeb locust_class (hatch_rate options) (num_clients options))
   else ret tt) ;;;
  (if negb (master options) && negb (slave options) then
     emit (NewLocalLocustRunner locust_class (hatch_rate options) (num_clients options)) ;;;
     (if no_web options then emit StartHatching else ret tt) ;;;
     (if print_stats options || no_web options then emit SpawnPrintStats else ret tt)
   else if master options then
     emit (NewMasterLocustRunner locust_class (hatch_rate options) (num_clients options)
             (redis_host options) (redis_port options))
   else if slave options then
     emit (NewSlaveLocustRunner locust_class (hatch_rate options) (num_clients options)
             (redis_host options) (redis_port options))
   else ret tt) ;;;
  try_except_KeyboardInterrupt
    (gevent_sleep env 100000)
    (emit (Print EmptyString) ;;;
     emit (Print "Exiting, bye..") ;;;
     emit (Print EmptyString)) ;;;
  sys_exit 0.

(** [main()] *)
Definition main (env : environment) (fuel : nat) : Py unit :=
  emit (Print EmptyString) ;;;
  let options := env_options env in
  let arguments := env_arguments env in
  (if show_version options then
     emit (Print "Locust 0.1") ;;;
     sys_exit 0
   else ret tt) ;;;
  found <- within_fuel (find_locustfile env fuel (locustfile options)) ;;
  path <-
    (match found with
     | Some p =>
         if negb (String.eqb p EmptyString) then ret p
         else emit (Print "Could not find any locustfile!") ;;; sys_exit 1
     | None => emit (Print "Could not find any locustfile!") ;;; sys_exit 1
     end) ;;
  loaded <- load_locustfile env path ;;
  let '(docstring, locusts) := loaded in
  (if list_commands options then
     emit (Print "Available Locusts:") ;;;
     print_names (map fst (map_to_list locusts)) ;;;
     sys_exit 0
   else ret tt) ;;;
  arg0 <- py_getitem arguments 0 ;;
  locust_class <-
    (match locusts !! arg0 with
     | None =>
         emit (StderrWrite ("Unknown Locust: " +:+ arg0 +:+ newline)) ;;;
         sys_exit 1
     | Some c => ret c
     end) ;;
  main_bootstrap env locust_class.

(** ** The process *)

(** How the interpreter ends: [sys.exit(status)], an uncaught exception
    (traceback on the error stream, status 1), or no answer within the fuel. *)
Inductive ending : Type :=
| Exited (status : Z)
| Traceback (e : exn)
| NoAnswer.

Definition exit_status (e : ending) : option Z :=
  match e with
  | Exited status => Some status
  | Traceback _ => Some 1%Z
  | NoAnswer => None
  end.

Definition run {A : Type} (m : Py A) (w : world) : ending * world :=
  match m w with
  | (Ret _, w') => (Exited 0, w')
  | (Raise (SystemExit code), w') => (Exited code, w')
  | (Raise e, w') => (Traceback e, w')
  | (OutOfFuel, w') => (NoAnswer, w')
  end.

(** The launcher started with the search list [path0] and nothing done yet. *)
Definition launch (env : environment) (fuel : nat) (path0 : list string)
  : ending * world :=
  run (main env fuel) {| sys_path := path0; trace := [] |}.

(** Runners constructed during a run. *)
Definition is_runner (e : event) : bool :=
  match e with
  | NewLocalLocustRunner _ _ _
  | NewMasterLocustRunner _ _ _ _ _
  | NewSlaveLocustRunner _ _ _ _ _ => true
  | _ => false
  end.

(** * Vocabulary of the properties *)

(** ** Directories as lists of names *)

(** A name a directory entry can have: not empty, not [.] or [..], and
    without a slash. *)
Definition plain_name (c : string) : bool :=
  negb (String.eqb c EmptyString) && negb (String.eqb c ".")
  && negb (String.eqb c "..") && negb (PyStr.contains c "/").

(** The absolute path of the directory reached from the root through the
    directories [cs]; what [os.getcwd()] returns. *)
Definition abs_of (cs : list string) : string := "/" +:+ PyStr.join "/" cs.

(** The components [normpath] is left with when it reads the relative path
    [r] below the directory [st]. *)
Definition norm_from (st : list string) (r : string) : list string :=
  fold_left (posixpath.normpath_step 1) (PyStr.split r "/") st.

Definition relative (r : string) : Prop := PyStr.startswith r "/" = false.

(** ** The ancestor walk of [find_locustfile], told by directories *)

(** The value of [path] after [k] rounds of the [while]. *)
Definition path_after (k : nat) : string := Nat.iter k (posixpath.join "..") ".".

(** The directory [k] levels above [cs]. *)
Definition ancestor (cs : list string) (k : nat) : list string :=
  take (length cs - k) cs.

(** The absolute path of [name] looked up from the directory [dir]. *)
Definition candidate (dir : list string) (name : string) : string :=
  posixpath.abspath (abs_of dir) name.

(** A candidate is accepted when it exists and either its name ends in
    [.py] or it is a directory that holds the marker [__init__.py]. *)
Definition accepted (env : environment) (dir : list string) (name : string) : bool :=
  match env_fs env (candidate dir name) with
  | None => false
  | Some kind =>
      PyStr.endswith name ".py"
      || (match kind with Dir => true | File => false end
          && match env_fs env (candidate dir (posixpath.join name "__init__.py")) with
             | Some _ => true
             | None => false
             end)
  end.

(** The first accepted candidate of one directory, names in order. *)
Fixpoint first_in_dir (env : environment) (dir : list string) (names : list string)
  : option string :=
  match names with
  | [] => None
  | name :: names' =>
      if accepted env dir name then Some (candidate dir name)
      else first_in_dir env dir names'
  end.

(** The first accepted candidate over the directories in order; every
    name of a directory is tried before the next directory. *)
Fixpoint nearest_first (env : environment) (dirs : list (list string))
    (names : list string) : option string :=
  match dirs with
  | [] => None
  | dir :: dirs' =>
      match first_in_dir env dir names with
      | Some found => Some found
      | None => nearest_first env dirs' names
      end
  end.

(** The directory itself, then its parent, and so on; the root is left out. *)
Definition ancestors_from (cs : list string) (k : nat) : list (list string) :=
  map (ancestor cs) (seq k (length cs - k)).

Definition ancestors (cs : list string) : list (list string) := ancestors_from cs 0.

(** ** The search list around the import *)

(** The search list with [d] brought to the front: what [load_locustfile]
    hands to the import. *)
Definition moved_to_front (d : string) (l : list string) : list string :=
  d :: match py_index d l with
       | Some i => take i l ++ drop (S i) l
       | None => l
       end.

(** The module that [load_locustfile] imports for [path]. *)
Definition module_name (path : string) : string :=
  fst (posixpath.splitext (snd (posixpath.split path))).

(** The scenarios that [load_locustfile] keeps of an imported module. *)
Definition catalog (env : environment) (m : pymodule) : gmap string pyvalue :=
  list_to_map (List.filter (is_locust env) (map_to_list (mod_vars m))).

(** ** The runs of [main] *)

(** What the launcher prints, as opposed to what it starts. *)
Definition is_output (e : event) : bool :=
  match e with
  | Print _ | StderrWrite _ => true
  | _ => false
  end.

(** The world once [main] has printed its opening empty line. *)
Definition started (w : world) : world :=
  {| sys_path := sys_path w; trace := trace w ++ [Print EmptyString] |}.

(** The scenario class with which [main] enters the bootstrap, and the
    world in which it does: no version or list request, a locustfile found
    and loaded, and a first argument that names one of its scenarios. *)
Definition selected (env : environment) (fuel : nat) (w : world)
  : option (pyvalue * world) :=
  if show_version (env_options env) then None
  else
    match find_locustfile env fuel (locustfile (env_options env)) with
    | Some (Some p) =>
        if String.eqb p EmptyString then None
        else
          match load_locustfile env p (started w) with
          | (Ret (_, locusts), w2) =>
              if list_commands (env_options env) then None
              else
                match env_arguments env with
                | a :: _ =>
                    match locusts !! a with
                    | Some cls => Some (cls, w2)
                    | None => None
                    end
                | [] => None
                end
          | _ => None
          end
    | _ => None
    end.

(** The web monitor, when [main_bootstrap] starts it. *)
Definition web_events (o : options) (cls : pyvalue) : list event :=
  if negb (no_web o) && negb (slave o)
  then [SpawnWeb cls (hatch_rate o) (num_clients o)] else [].

(** The runner of the topology and the tasks started with it. *)
Definition runner_events (o : options) (cls : pyvalue) : list event :=
  if negb (master o) && negb (slave o) then
    NewLocalLocustRunner cls (hatch_rate o) (num_clients o)
    :: (if no_web o then [StartHatching] else [])
    ++ (if print_stats o || no_web o then [SpawnPrintStats] else [])
  else if master o then
    [NewMasterLocustRunner cls (hatch_rate o) (num_clients o) (redis_host o) (redis_port o)]
  else
    [NewSlaveLocustRunner cls (hatch_rate o) (num_clients o) (redis_host o) (redis_port o)].

(** The user interrupts before the sleep of the launcher is over. *)
Definition interrupted (env : environment) : bool :=
  match env_interrupt env with
  | Some t => (t <? 100000)%Z
  | None => false
  end.

(** The lines printed on an interrupt. *)
Definition farewell : list event :=
  [Print EmptyString; Print "Exiting, bye.."; Print EmptyString].

(** The wait at the end of [main_bootstrap]. *)
Definition wait_events (env : environment) : list event :=
  Sleep 100000 :: (if interrupted env then farewell else []).

(** Everything [main_bootstrap] does, in order. *)
Definition bootstrap_events (env : environment) (cls : pyvalue) : list event :=
  web_events (env_options env) cls
  ++ runner_events (env_options env) cls
  ++ wait_events env.

(** The web monitor among the events. *)
Definition is_web (e : event) : bool :=
  match e with SpawnWeb _ _ _ => true | _ => false end.

(** The stats-printing task among the events. *)
Definition is_stats (e : event) : bool :=
  match e with SpawnPrintStats => true | _ => false end.

(** ** A project on disk, for the examples

    [/proj/tasks.py] declares two scenarios, [Foo] and [_Bar], and binds
    the name [Base] to the base class [Locust] of the harness; the launcher
    is started in [/proj/tests]. *)

Definition object_ : pyclass := PyClass "object" [].
Definition Locust : pyclass := PyClass "Locust" [object_].
Definition Foo : pyclass := PyClass "Foo" [Locust].
Definition _Bar : pyclass := PyClass "_Bar" [Locust].

(** [/proj/tasks.py] once imported. *)
Definition tasks_module : pymodule := {|
  mod_doc := None;
  mod_vars := list_to_map
    [("Foo", VClass Foo); ("_Bar", VClass _Bar); ("Base", VClass Locust)];
|}.

(** The files and directories of the project. *)
Definition proj_fs (p : string) : option node :=
  if String.eqb p "/" then Some Dir
  else if String.eqb p "/proj" then Some Dir
  else if String.eqb p "/proj/tests" then Some Dir
  else if String.eqb p "/proj/tasks.py" then Some File
  else None.

(** The import finds [tasks] when [/proj] is on the search list. *)
Definition proj_import (name : string) (path : list string)
  : result pymodule * list string :=
  if String.eqb name "tasks" && bool_decide ("/proj" ∈ path)
  then (Ret tasks_module, path)
  else (Raise (ImportError name), path).

(** A locustfile whose code raises while it is imported. *)
Definition broken_import (name : string) (path : list string)
  : result pymodule * list string :=
  (Raise (OtherError "NameError"), path).

(** The command line [-f tasks] with the given switches. *)
Definition flags (list_commands shortlist print_stats no_web master slave : bool)
  : options := {|
  show_version := false;
  list_commands := list_commands;
  shortlist := shortlist;
  print_stats := print_stats;
  no_web := no_web;
  master := master;
  slave := slave;
  num_clients := 1;
  hatch_rate := 1;
  redis_host := "localhost";
  redis_port := 6379;
  hosts := None;
  locustfile := "tasks";
|}.

(** The launcher started in [/proj/tests]. *)
Definition proj_env (o : options) (args : list string) (interrupt : option Z)
  : environment := {|
  env_cwd := "/proj/tests";
  env_fs := proj_fs;
  env_expanduser := λ name, name;
  env_import := proj_import;
  env_Locust := Locust;
  env_options := o;
  env_arguments := args;
  env_interrupt := interrupt;
|}.

(** The same project with a locustfile that cannot be imported. *)
Definition broken_env : environment := {|
  env_cwd := "/proj/tests";
  env_fs := proj_fs;
  env_expanduser := λ name, name;
  env_import := broken_import;
  env_Locust := Locust;
  env_options := flags false false false false false false;
  env_arguments := ["Foo"];
  env_interrupt := None;
|}.

(** ** Three properties the launcher does not have *)

(** The search list after the load, or after its error, is the one
    before (C1 as stated). *)
Definition search_list_kept (env : environment) (path : string) (w : world) : Prop :=
  sys_path (snd (load_locustfile env path w)) = sys_path w.

(** The run ends in an error and constructs no runner (C3 as stated, for
    a run with both [--master] and [--slave]). *)
Definition rejected_before_runner (r : ending * world) : Prop :=
  exit_status (fst r) ≠ Some 0%Z
  ∧ Forall (λ e, is_runner e = false) (trace (snd r)).

(** Once in the bootstrap, only an interrupt ends the process (C8 as
    stated). *)
Definition waits_without_timeout (env : environment) (fuel : nat)
    (path0 : list string) : Prop :=
  ∀ cls w2,
    selected env fuel {| sys_path := path0; trace := [] |} = Some (cls, w2) →
    env_interrupt env = None →
    ∀ status, fst (launch env fuel path0) ≠ Exited status.

(** ** Further environments and events *)

(** The launcher started in the root directory, where [/locust.py] lies. *)
Definition root_fs (p : string) : option node :=
  if String.eqb p "/" then Some Dir
  else if String.eqb p "/locust.py" then Some File
  else None.

(** The launcher started in [/] with the default options. *)
Definition root_env : environment := {|
  env_cwd := "/";
  env_fs := root_fs;
  env_expanduser := λ name, name;
  env_import := proj_import;
  env_Locust := Locust;
  env_options := default_options;
  env_arguments := ["Foo"];
  env_interrupt := None;
|}.

(** [k] parent steps: [../] written [k] times. *)
Definition parent_steps (k : nat) : string :=
  Nat.iter k (String.append "../") EmptyString.

(** A locustfile that appends a directory of its own to the search list. *)
Definition appending_import (name : string) (path : list string)
  : result pymodule * list string :=
  if String.eqb name "tasks" && bool_decide ("/proj" ∈ path)
  then (Ret tasks_module, path ++ ["/proj/lib"])
  else (Raise (ImportError name), path).

(** The project with that locustfile. *)
Definition appending_env : environment := {|
  env_cwd := "/proj/tests";
  env_fs := proj_fs;
  env_expanduser := λ name, name;
  env_import := appending_import;
  env_Locust := Locust;
  env_options := flags false false false false false false;
  env_arguments := ["Foo"];
  env_interrupt := None;
|}.

(** The launcher's own trigger of the hatching among the events. *)
Definition is_hatching (e : event) : bool :=
  match e with StartHatching => true | _ => false end.

(** How the interpreter ends on an exception that nothing catches. *)
Definition uncaught (e : exn) : ending :=
  match e with
  | SystemExit code => Exited code
  | _ => Traceback e
  end.

(** * Proofs *)

(** Runs the monad of the launcher one layer further. *)
Ltac run_py :=
  cbv [bind get_sys_path sys_path_index sys_path_insert sys_path_del ret raise
       __import__ emit sys_exit within_fuel py_getitem gevent_sleep
       try_except_KeyboardInterrupt];
  cbn [sys_path trace].

(** ** [posixpath] on some paths *)

Example posixpath_split_1 : posixpath.split "/proj/tests/tasks.py" = ("/proj/tests", "tasks.py").
Proof. reflexivity. Qed.
Example posixpath_split_2 : posixpath.split "/" = ("/", EmptyString).
Proof. reflexivity. Qed.
Example posixpath_split_3 : posixpath.split "tasks.py" = (EmptyString, "tasks.py").
Proof. reflexivity. Qed.
Example posixpath_split_4 : posixpath.split "/proj//" = ("/proj", EmptyString).
Proof. reflexivity. Qed.
Example posixpath_splitext_1 : posixpath.splitext "tasks.py" = ("tasks", ".py").
Proof. reflexivity. Qed.
Example posixpath_splitext_2 : posixpath.splitext ".hidden" = (".hidden", EmptyString).
Proof. reflexivity. Qed.
Example posixpath_splitext_3 : posixpath.splitext "a.b/c" = ("a.b/c", EmptyString).
Proof. reflexivity. Qed.
Example posixpath_normpath_1 : posixpath.normpath "/proj/tests/.././tasks.py" = "/proj/tasks.py".
Proof. reflexivity. Qed.
Example posixpath_normpath_2 : posixpath.normpath "/proj/../../." = "/".
Proof. reflexivity. Qed.
Example posixpath_normpath_3 : posixpath.normpath "a/../../b" = "../b".
Proof. reflexivity. Qed.
Example posixpath_join_1 : posixpath.join ".." "." = "../.".
Proof. reflexivity. Qed.
Example posixpath_join_2 : posixpath.join "/" "x" = "/x".
Proof. reflexivity. Qed.

(** ** Strings *)

Lemma append_nil_l (s : string) : EmptyString +:+ s = s.
Proof. reflexivity. Qed.

Lemma append_cons (a : ascii) (s t : string) : String a s +:+ t = String a (s +:+ t).
Proof. reflexivity. Qed.

Lemma append_assoc (s t u : string) : (s +:+ t) +:+ u = s +:+ t +:+ u.
Proof. induction s as [|a s IH]; [reflexivity|]. rewrite !append_cons. by rewrite IH. Qed.

Section one_char.
Variable c : ascii.

Lemma split_nonempty (s : string) : PyStr.split s c ≠ [].
Proof.
  destruct s as [|a s]; simpl; [done|].
  destruct (Ascii.eqb a c); [done|]. by destruct (PyStr.split s c).
Qed.

Lemma split_app_sep (s t : string) :
  PyStr.split (s +:+ String c t) c = PyStr.split s c ++ PyStr.split t c.
Proof.
  induction s as [|a s IH].
  - rewrite append_nil_l. simpl. by rewrite Ascii.eqb_refl.
  - rewrite append_cons. simpl. rewrite IH.
    destruct (Ascii.eqb a c); [done|].
    pose proof (split_nonempty s) as Hne.
    by destruct (PyStr.split s c).
Qed.

Lemma split_no_sep (s : string) :
  PyStr.contains s c = false → PyStr.split s c = [s].
Proof.
  induction s as [|a s IH]; simpl; [done|].
  intros [Ha Hs]%orb_false_iff. rewrite Ha, (IH Hs). done.
Qed.

Lemma split_comps_no_sep (s : string) :
  Forall (λ x, PyStr.contains x c = false) (PyStr.split s c).
Proof.
  induction s as [|a s IH]; simpl.
  - by repeat constructor.
  - destruct (Ascii.eqb a c) eqn:Ha.
    + by constructor.
    + destruct (PyStr.split s c) as [|h t]; [by repeat constructor; simpl; rewrite Ha|].
      inversion_clear IH. constructor; [|done]. simpl. by rewrite Ha.
Qed.

Lemma rfind_no_sep (s : string) :
  PyStr.contains s c = false → PyStr.rfind s c = (-1)%Z.
Proof.
  induction s as [|a s IH]; simpl; [done|].
  intros [Ha Hs]%orb_false_iff. rewrite (IH Hs), Ha. done.
Qed.

Lemma rfind_app_sep (s t : string) :
  PyStr.contains t c = false →
  PyStr.rfind (s +:+ String c t) c = Z.of_nat (String.length s).
Proof.
  intros Ht. induction s as [|a s IH].
  - rewrite append_nil_l. simpl. rewrite (rfind_no_sep _ Ht), Ascii.eqb_refl. done.
  - rewrite append_cons. simpl PyStr.rfind. rewrite IH.
    destruct (0 <=? Z.of_nat (String.length s))%Z eqn:E; [simpl String.length; lia|].
    apply Z.leb_gt in E. lia.
Qed.

End one_char.

Lemma str_drop_app_length (s t : string) : PyStr.drop (String.length s) (s +:+ t) = t.
Proof. induction s as [|a s IH]; [by destruct t|]. rewrite append_cons. simpl. done. Qed.

Lemma endswith_sep_no_sep (c : ascii) (s : string) :
  PyStr.contains s c = false → PyStr.endswith s (String c EmptyString) = false.
Proof.
  induction s as [|a s IH]; simpl; [done|].
  intros [Ha Hs]%orb_false_iff. rewrite (IH Hs), Ha. done.
Qed.

Lemma endswith_app (s suf : string) : PyStr.endswith (s +:+ suf) suf = true.
Proof.
  induction s as [|a s IH].
  - rewrite append_nil_l. destruct suf; simpl; [done|]. by rewrite Ascii.eqb_refl, String.eqb_refl.
  - rewrite append_cons. simpl. rewrite IH. apply orb_true_r.
Qed.

Lemma endswith_inv (s suf : string) :
  PyStr.endswith s suf = true → ∃ p, s = p +:+ suf.
Proof.
  induction s as [|a s IH].
  - destruct suf; [by exists EmptyString|done].
  - cbn [PyStr.endswith].
    intros [->%String.eqb_eq|H]%orb_true_iff; [by exists EmptyString|].
    destruct (IH H) as [p ->]. by exists (String a p).
Qed.

Lemma endswith_app_plain (c : ascii) (s t : string) :
  t ≠ EmptyString → PyStr.contains t c = false →
  PyStr.endswith (s +:+ t) (String c EmptyString) = false.
Proof.
  intros Hne Ht. induction s as [|a s IH].
  - rewrite append_nil_l. by apply endswith_sep_no_sep.
  - rewrite append_cons. simpl. rewrite IH, orb_false_r.
    destruct (s +:+ t) as [|b u] eqn:E.
    + destruct s; [by rewrite append_nil_l in E|by rewrite append_cons in E].
    + by destruct (Ascii.eqb a c).
Qed.

(** ** Normal forms of paths below a directory *)

Lemma plain_name_spec (c : string) :
  plain_name c = true ↔
  c ≠ EmptyString ∧ c ≠ "." ∧ c ≠ ".." ∧ PyStr.contains c "/" = false.
Proof.
  unfold plain_name. rewrite !andb_true_iff, !negb_true_iff.
  rewrite !String.eqb_neq. tauto.
Qed.

Lemma slash_app (t : string) : "/" +:+ t = String "/" t.
Proof. reflexivity. Qed.

Lemma join_cons2 (sep x y : string) (l : list string) :
  PyStr.join sep (x :: y :: l) = x +:+ sep +:+ PyStr.join sep (y :: l).
Proof. reflexivity. Qed.

Lemma join_snoc (sep : string) (cs : list string) (c : string) :
  cs ≠ [] → PyStr.join sep (cs ++ [c]) = PyStr.join sep cs +:+ sep +:+ c.
Proof.
  induction cs as [|x cs IH]; [done|intros _].
  destruct cs as [|y cs]; [reflexivity|].
  change ((x :: y :: cs) ++ [c]) with (x :: y :: (cs ++ [c])).
  rewrite !join_cons2. change (y :: cs ++ [c]) with ((y :: cs) ++ [c]).
  rewrite IH by done. by rewrite !append_assoc.
Qed.

Lemma split_join (cs : list string) :
  cs ≠ [] → Forall (λ x, PyStr.contains x "/" = false) cs →
  PyStr.split (PyStr.join "/" cs) "/" = cs.
Proof.
  induction cs as [|x cs IH]; [done|intros _ Hall].
  inversion_clear Hall as [|? ? Hx Hcs].
  destruct cs as [|y cs]; [by apply split_no_sep|].
  rewrite join_cons2, slash_app, split_app_sep, (split_no_sep _ _ Hx).
  by rewrite IH.
Qed.

Lemma Forall_plain_no_sep (cs : list string) :
  Forall (λ c, plain_name c = true) cs → Forall (λ x, PyStr.contains x "/" = false) cs.
Proof.
  intros H. eapply Forall_impl; [exact H|].
  intros c Hc. apply plain_name_spec in Hc. tauto.
Qed.

Lemma step_plain n st c :
  plain_name c = true → posixpath.normpath_step n st c = st ++ [c].
Proof.
  intros (H1 & H2 & H3 & _)%plain_name_spec. unfold posixpath.normpath_step.
  apply String.eqb_neq in H1, H2, H3. by rewrite H1, H2, H3.
Qed.

Lemma fold_plain n cs st :
  Forall (λ c, plain_name c = true) cs →
  fold_left (posixpath.normpath_step n) cs st = st ++ cs.
Proof.
  intros H. revert st. induction H as [|c cs Hc _ IH]; intros st; simpl.
  - by rewrite app_nil_r.
  - rewrite (step_plain _ _ _ Hc), IH. by rewrite <- app_assoc.
Qed.

Lemma last_plain_not_dotdot (st : list string) :
  Forall (λ c, plain_name c = true) st → last st ≠ Some "..".
Proof.
  intros H Hl. apply last_Some in Hl as [st' ->].
  apply Forall_app in H as [_ H]. by inversion_clear H.
Qed.

Lemma step_dotdot st :
  Forall (λ c, plain_name c = true) st →
  posixpath.normpath_step 1 st ".." = removelast st.
Proof.
  intros H. unfold posixpath.normpath_step. simpl.
  rewrite (bool_decide_eq_false_2 _ (last_plain_not_dotdot _ H)).
  rewrite andb_false_r. simpl.
  destruct st; [done|]. by rewrite bool_decide_eq_false_2.
Qed.

Lemma step_preserves_plain st c :
  Forall (λ c, plain_name c = true) st → PyStr.contains c "/" = false →
  Forall (λ c, plain_name c = true) (posixpath.normpath_step 1 st c).
Proof.
  intros Hst Hc.
  destruct (String.eqb c "..") eqn:Edd.
  { apply String.eqb_eq in Edd as ->. rewrite step_dotdot by done.
    destruct (decide (st = [])) as [->|Hne]; [done|].
    destruct (exists_last Hne) as (st' & x & ->).
    rewrite removelast_last. by apply Forall_app in Hst as [? _]. }
  unfold posixpath.normpath_step.
  destruct (String.eqb c EmptyString) eqn:E1; [done|].
  destruct (String.eqb c ".") eqn:E2; [done|]. simpl.
  rewrite Edd. simpl. apply Forall_app. split; [done|].
  constructor; [|done]. unfold plain_name. by rewrite E1, E2, Edd, Hc.
Qed.

Lemma norm_from_plain st r :
  Forall (λ c, plain_name c = true) st →
  Forall (λ c, plain_name c = true) (norm_from st r).
Proof.
  unfold norm_from. pose proof (split_comps_no_sep "/" r) as H.
  revert st. induction H as [|c cs Hc _ IH]; intros st Hst; simpl; [done|].
  apply IH. by apply step_preserves_plain.
Qed.

Lemma abs_of_not_empty cs : String.eqb (abs_of cs) EmptyString = false.
Proof. reflexivity. Qed.

Lemma normpath_slash (s : string) :
  relative s → posixpath.normpath (String "/" s) = abs_of (norm_from [] s).
Proof.
  intros Hs. unfold posixpath.normpath.
  change (String.eqb (String "/" s) EmptyString) with false. cbv iota.
  replace (PyStr.startswith (String "/" s) "/") with true by reflexivity.
  replace (PyStr.startswith (String "/" s) "//") with false by (symmetry; exact Hs).
  cbn [andb]. cbv iota.
  change (PyStr.split (String "/" s) posixpath.sep) with (EmptyString :: PyStr.split s "/").
  cbn [fold_left].
  change (posixpath.normpath_step 1 [] EmptyString) with (@nil string).
  change (PyStr.mul posixpath.sep 1) with "/".
  fold (norm_from [] s). fold (abs_of (norm_from [] s)).
  by rewrite abs_of_not_empty.
Qed.

Lemma relative_cons (a : ascii) (s : string) :
  relative (String a s) ↔ a ≠ "/"%char.
Proof.
  unfold relative. simpl. rewrite andb_true_r.
  destruct (Ascii.eqb_spec a "/"); [split; [done|congruence]|done].
Qed.

Lemma relative_app (s t : string) :
  s ≠ EmptyString → relative s → relative (s +:+ t).
Proof.
  destruct s as [|a s]; [done|]. intros _ H%relative_cons.
  rewrite append_cons. by apply relative_cons.
Qed.

Lemma plain_relative (c : string) : PyStr.contains c "/" = false → relative c.
Proof.
  destruct c as [|a c]; [done|]. simpl. intros [H _]%orb_false_iff.
  apply relative_cons. intros ->. done.
Qed.

Lemma join_relative (r1 r2 : string) :
  relative r1 → relative r2 → relative (posixpath.join r1 r2).
Proof.
  intros H1 H2. unfold posixpath.join. rewrite H2.
  destruct r1 as [|a r1]; [done|].
  match goal with |- relative (if ?b then _ else _) => destruct b end;
    by apply relative_app.
Qed.

(** The string that [posixpath.join] builds, up to the components of its
    normal form. *)
Lemma norm_from_app_sep st r1 r2 :
  norm_from st (r1 +:+ String "/" r2) = norm_from (norm_from st r1) r2.
Proof. unfold norm_from. by rewrite split_app_sep, fold_left_app. Qed.

Lemma norm_from_empty st : norm_from st EmptyString = st.
Proof. reflexivity. Qed.

Lemma norm_from_join st r1 r2 :
  relative r2 →
  norm_from st (posixpath.join r1 r2) = norm_from (norm_from st r1) r2.
Proof.
  intros H2. unfold posixpath.join. rewrite H2.
  destruct (String.eqb r1 EmptyString) eqn:E1.
  { apply String.eqb_eq in E1 as ->. by rewrite append_nil_l, norm_from_empty. }
  simpl orb. destruct (PyStr.endswith r1 "/") eqn:E2.
  - apply endswith_inv in E2 as [p ->].
    rewrite append_assoc, slash_app, !norm_from_app_sep.
    by rewrite norm_from_empty.
  - by rewrite slash_app, norm_from_app_sep.
Qed.

Lemma norm_from_nil_join cs :
  Forall (λ c, plain_name c = true) cs → norm_from [] (PyStr.join "/" cs) = cs.
Proof.
  intros H. destruct (decide (cs = [])) as [->|Hne]; [done|].
  unfold norm_from. rewrite split_join by eauto using Forall_plain_no_sep.
  by rewrite fold_plain.
Qed.

Lemma abs_of_snoc cs c :
  abs_of (cs ++ [c]) = (match cs with [] => EmptyString | _ => abs_of cs end) +:+ String "/" c.
Proof.
  destruct cs as [|x cs]; [reflexivity|].
  unfold abs_of. rewrite join_snoc by done.
  rewrite append_assoc. reflexivity.
Qed.

Lemma abs_of_endswith cs :
  Forall (λ c, plain_name c = true) cs →
  PyStr.endswith (abs_of cs) "/" = bool_decide (cs = []).
Proof.
  intros H. destruct (decide (cs = [])) as [->|Hne]; [done|].
  rewrite bool_decide_eq_false_2 by done.
  destruct (exists_last Hne) as (cs' & c & ->).
  apply Forall_app in H as [_ H]. inversion_clear H as [|? ? Hc _].
  apply plain_name_spec in Hc as (Hc1 & _ & _ & Hc2).
  rewrite abs_of_snoc.
  change (String "/" c) with (String "/" EmptyString +:+ c).
  rewrite <- append_assoc. by apply endswith_app_plain.
Qed.

Lemma join_relative_first cs :
  Forall (λ c, plain_name c = true) cs → relative (PyStr.join "/" cs).
Proof.
  intros H. destruct H as [|c cs Hc Hcs]; [done|].
  apply plain_name_spec in Hc as (Hc1 & _ & _ & Hc2).
  destruct cs as [|y cs]; [by apply plain_relative|].
  rewrite join_cons2. apply relative_app; [done|by apply plain_relative].
Qed.

Lemma abspath_abs_of cs r :
  Forall (λ c, plain_name c = true) cs → relative r →
  posixpath.abspath (abs_of cs) r = abs_of (norm_from cs r).
Proof.
  intros Hcs Hr. unfold posixpath.abspath, posixpath.isabs. rewrite Hr.
  unfold posixpath.join. rewrite Hr, abs_of_not_empty, abs_of_endswith by done.
  simpl orb. case_bool_decide as Hnil.
  - subst cs. change (abs_of [] +:+ r) with (String "/" r).
    by rewrite normpath_slash.
  - unfold abs_of at 1. rewrite slash_app, append_cons, normpath_slash.
    + by rewrite slash_app, norm_from_app_sep, norm_from_nil_join.
    + apply relative_app; [|by apply join_relative_first].
      destruct cs as [|c cs]; [done|].
      inversion_clear Hcs as [|? ? Hc _].
      apply plain_name_spec in Hc as (Hc1 & _).
      destruct cs; [done|]. rewrite join_cons2. by destruct c.
Qed.

Lemma str_drop_app_length_S (s t : string) (a : ascii) :
  PyStr.drop (S (String.length s)) (s +:+ String a t) = t.
Proof. induction s as [|b s IH]; [by destruct t|]. rewrite append_cons. simpl. done. Qed.

Lemma split_tail (p c : string) :
  PyStr.contains c "/" = false →
  snd (posixpath.split (p +:+ String "/" c)) = c.
Proof.
  intros Hc. unfold posixpath.split. cbn [snd].
  unfold posixpath.sep. rewrite rfind_app_sep by done.
  replace (Z.to_nat (Z.of_nat (String.length p) + 1)) with (S (String.length p)) by lia.
  apply str_drop_app_length_S.
Qed.

Lemma split_tail_abs_of cs :
  Forall (λ c, plain_name c = true) cs →
  String.eqb (snd (posixpath.split (abs_of cs))) EmptyString = bool_decide (cs = []).
Proof.
  intros H. destruct (decide (cs = [])) as [->|Hne]; [done|].
  rewrite bool_decide_eq_false_2 by done.
  destruct (exists_last Hne) as (cs' & c & ->).
  apply Forall_app in H as [_ H]. inversion_clear H as [|? ? Hc _].
  apply plain_name_spec in Hc as (Hc1 & _ & _ & Hc2).
  rewrite abs_of_snoc, split_tail by done. by apply String.eqb_neq.
Qed.

(** ** The ancestor walk *)

Lemma path_after_relative k : relative (path_after k).
Proof.
  induction k as [|k IH]; [done|].
  change (path_after (S k)) with (posixpath.join ".." (path_after k)).
  by apply join_relative.
Qed.

Lemma ancestor_plain cs k :
  Forall (λ c, plain_name c = true) cs → Forall (λ c, plain_name c = true) (ancestor cs k).
Proof. apply Forall_take. Qed.

Lemma removelast_take {A} (l : list A) : removelast l = take (length l - 1) l.
Proof.
  destruct (decide (l = [])) as [->|Hne]; [done|].
  destruct (exists_last Hne) as (l' & x & ->).
  rewrite removelast_last, length_app. simpl.
  replace (length l' + 1 - 1) with (length l') by lia.
  by rewrite take_app_length.
Qed.

Lemma norm_from_path_after st k :
  Forall (λ c, plain_name c = true) st →
  norm_from st (path_after k) = take (length st - k) st.
Proof.
  revert st. induction k as [|k IH]; intros st Hst.
  - change (path_after 0) with ".". rewrite Nat.sub_0_r, firstn_all. done.
  - change (path_after (S k)) with (posixpath.join ".." (path_after k)).
    rewrite norm_from_join by apply path_after_relative.
    change (norm_from st "..") with (posixpath.normpath_step 1 st "..").
    rewrite step_dotdot by done. rewrite removelast_take.
    rewrite IH by (by apply Forall_take).
    rewrite take_take, length_take. f_equal. lia.
Qed.

(** The walk started in the directory [cs]. *)
Section walk.
Variable env : environment.
Variable cs : list string.
Hypothesis Hcwd : env_cwd env = abs_of cs.
Hypothesis Hcs : Forall (λ c, plain_name c = true) cs.

Lemma abspath_path_after k :
  os_path_abspath env (path_after k) = abs_of (ancestor cs k).
Proof.
  unfold os_path_abspath. rewrite Hcwd.
  rewrite abspath_abs_of by auto using path_after_relative.
  by rewrite norm_from_path_after.
Qed.

Lemma abspath_under k r :
  relative r →
  os_path_abspath env (posixpath.join (path_after k) r) = candidate (ancestor cs k) r.
Proof.
  intros Hr. unfold os_path_abspath, candidate. rewrite Hcwd.
  rewrite !abspath_abs_of
    by auto using path_after_relative, join_relative, ancestor_plain.
  by rewrite norm_from_join, norm_from_path_after.
Qed.

Lemma abspath_under2 k r1 r2 :
  relative r1 → relative r2 →
  os_path_abspath env (posixpath.join (posixpath.join (path_after k) r1) r2)
  = candidate (ancestor cs k) (posixpath.join r1 r2).
Proof.
  intros Hr1 Hr2. unfold os_path_abspath, candidate. rewrite Hcwd.
  rewrite !abspath_abs_of
    by auto using path_after_relative, join_relative, ancestor_plain.
  by rewrite !norm_from_join, norm_from_path_after.
Qed.

Lemma find_in_dir_ancestor k names :
  Forall (λ x, PyStr.contains x "/" = false) names →
  find_in_dir env (path_after k) names = first_in_dir env (ancestor cs k) names.
Proof.
  induction 1 as [|name names Hname _ IH]; [done|].
  cbn [find_in_dir first_in_dir]. rewrite IH.
  unfold os_path_exists, _is_package, os_path_isdir, os_path_exists, accepted.
  apply plain_relative in Hname.
  rewrite abspath_under2, !abspath_under by done.
  destruct (env_fs env (candidate (ancestor cs k) name)) as [[]|];
    destruct (PyStr.endswith name ".py"); cbn [andb orb]; try done;
    by destruct (env_fs env (candidate (ancestor cs k) (posixpath.join name "__init__.py"))).
Qed.

Lemma find_upwards_ancestors names fuel k :
  Forall (λ x, PyStr.contains x "/" = false) names →
  length cs - k < fuel →
  find_upwards env names fuel (path_after k)
  = Some (nearest_first env (ancestors_from cs k) names).
Proof.
  intros Hnames. revert k. induction fuel as [|fuel IH]; intros k Hk; [lia|].
  cbn [find_upwards]. rewrite abspath_path_after.
  rewrite split_tail_abs_of by by apply ancestor_plain.
  unfold ancestors_from.
  destruct (decide (length cs - k = 0)) as [Hz|Hnz].
  - assert (ancestor cs k = []) as Hnil by (unfold ancestor; by rewrite Hz).
    rewrite bool_decide_eq_true_2 by done. by rewrite Hz.
  - rewrite bool_decide_eq_false_2; last first.
    { unfold ancestor. intros Hnil%(f_equal length). rewrite length_take in Hnil. simpl in Hnil. lia. }
    cbn [negb]. rewrite find_in_dir_ancestor by done.
    assert (length cs - k = S (length cs - S k)) as -> by lia.
    cbn [seq map nearest_first].
    destruct (first_in_dir env (ancestor cs k) names); [done|].
    change (posixpath.join ".." (path_after k)) with (path_after (S k)).
    rewrite IH by lia. done.
Qed.

End walk.

Lemma contains_app (c : ascii) (s t : string) :
  PyStr.contains (s +:+ t) c = PyStr.contains s c || PyStr.contains t c.
Proof.
  induction s as [|a s IH]; [done|]. rewrite append_cons. simpl.
  by rewrite IH, orb_assoc.
Qed.

Lemma dirname_no_sep (n : string) :
  PyStr.contains n "/" = false → posixpath.dirname n = EmptyString.
Proof.
  intros Hn. unfold posixpath.dirname, posixpath.sep.
  rewrite rfind_no_sep by done. simpl Z.to_nat. by destruct n.
Qed.

Lemma candidate_names_no_sep (n : string) :
  PyStr.contains n "/" = false →
  Forall (λ x, PyStr.contains x "/" = false) (candidate_names n).
Proof.
  intros Hn. unfold candidate_names.
  destruct (PyStr.endswith n ".py"); simpl; repeat constructor; try done.
  by rewrite contains_app, Hn.
Qed.

(** A bare name is resolved to its first accepted candidate, the
    directories taken from the working directory upwards. *)
Lemma find_locustfile_bare env cs n fuel :
  env_cwd env = abs_of cs →
  Forall (λ c, plain_name c = true) cs →
  PyStr.contains n "/" = false →
  length cs < fuel →
  find_locustfile env fuel n
  = Some (nearest_first env (ancestors cs) (candidate_names n)).
Proof.
  intros Hcwd Hcs Hn Hfuel. unfold find_locustfile.
  rewrite dirname_no_sep by done. cbn [String.eqb negb].
  change "." with (path_after 0).
  apply find_upwards_ancestors; auto using candidate_names_no_sep. lia.
Qed.

(** The ancestors of a directory are the directory, then the ancestors of
    its parent. *)
Lemma ancestors_snoc cs c : ancestors (cs ++ [c]) = (cs ++ [c]) :: ancestors cs.
Proof.
  unfold ancestors, ancestors_from. rewrite !Nat.sub_0_r, length_app. simpl.
  replace (length cs + 1) with (S (length cs)) by lia. cbn [seq map].
  f_equal.
  - unfold ancestor. rewrite length_app. simpl. rewrite Nat.sub_0_r.
    replace (length cs + 1) with (length (cs ++ [c])) by (rewrite length_app; simpl; lia).
    apply firstn_all.
  - rewrite <- seq_shift, map_map. apply map_ext_in. intros k Hk%in_seq.
    unfold ancestor. rewrite length_app. simpl.
    replace (length cs + 1 - S k) with (length cs - k) by lia.
    rewrite take_app_le by lia. done.
Qed.

(** C5. For a requested name [n] without a path separator, started in
    the directory [cs], [find_locustfile] returns the absolute path of the
    first accepted candidate, where the directory itself comes before its
    parent, the parent before the grandparent and so on, and in each
    directory the bare name comes before the name with [.py] appended.
    In particular, started in [/proj/tests] with no [tasks.py] there and no
    package [tasks] on the way, and with [/proj/tasks.py] present, the
    name [tasks] resolves to [/proj/tasks.py]. *)
Theorem find_locustfile_nearest_first :
  (∀ env cs n fuel,
     env_cwd env = abs_of cs →
     Forall (λ c, plain_name c = true) cs →
     PyStr.contains n "/" = false →
     length cs < fuel →
     find_locustfile env fuel n
     = Some (nearest_first env (ancestors cs) (candidate_names n)))
  ∧
  (∀ env fuel,
     env_cwd env = "/proj/tests" →
     env_fs env "/proj/tests/tasks.py" = None →
     is_Some (env_fs env "/proj/tasks.py") →
     env_fs env "/proj/tests/tasks/__init__.py" = None →
     env_fs env "/proj/tasks/__init__.py" = None →
     2 < fuel →
     find_locustfile env fuel "tasks" = Some (Some "/proj/tasks.py")).
Proof.
  split.
  - intros env cs n fuel Hcwd Hcs Hn Hfuel. by apply find_locustfile_bare.
  - intros env fuel Hcwd H1 [kind H2] H3 H4 Hfuel.
    rewrite (find_locustfile_bare env ["proj"; "tests"] "tasks" fuel);
      [|done|by repeat constructor|done|simpl; lia].
    f_equal.
    change (candidate_names "tasks") with ["tasks"; "tasks.py"].
    change (ancestors ["proj"; "tests"]) with [["proj"; "tests"]; ["proj"]].
    cbn [nearest_first first_in_dir]. unfold accepted.
    change (candidate ["proj"; "tests"] "tasks") with "/proj/tests/tasks".
    change (candidate ["proj"; "tests"] (posixpath.join "tasks" "__init__.py"))
      with "/proj/tests/tasks/__init__.py".
    change (candidate ["proj"; "tests"] "tasks.py") with "/proj/tests/tasks.py".
    change (candidate ["proj"] "tasks") with "/proj/tasks".
    change (candidate ["proj"] (posixpath.join "tasks" "__init__.py"))
      with "/proj/tasks/__init__.py".
    change (candidate ["proj"] "tasks.py") with "/proj/tasks.py".
    rewrite H1, H2, H3, H4.
    change (PyStr.endswith "tasks" ".py") with false.
    change (PyStr.endswith "tasks.py" ".py") with true.
    cbn [orb andb].
    destruct (env_fs env "/proj/tests/tasks") as [[]|];
      destruct (env_fs env "/proj/tasks") as [[]|]; done.
Qed.

Lemma find_locustfile_nearest_first_witness :
  find_locustfile (proj_env (flags false false false false false false) ["Foo"] None)
    3 "tasks"
  = Some (Some "/proj/tasks.py").
Proof.
  apply (proj2 find_locustfile_nearest_first
           (proj_env (flags false false false false false false) ["Foo"] None) 3);
    try reflexivity.
  - by eexists.
  - lia.
Defined.

(** C6. For a bare name and a starting directory [cs], the last component
    that [os.path.split] finds in the normalized path is empty exactly when
    the ascent has reached the root, that is after [length cs] rounds;
    [find_locustfile] then answers, and its answer is the not-found signal
    [None] when no candidate was accepted on the way. *)
Theorem find_locustfile_stops_at_root env cs n fuel :
  env_cwd env = abs_of cs →
  Forall (λ c, plain_name c = true) cs →
  PyStr.contains n "/" = false →
  length cs < fuel →
  (∀ k, String.eqb (snd (posixpath.split (os_path_abspath env (path_after k))))
                   EmptyString
        = bool_decide (length cs ≤ k))
  ∧ (∃ r, find_locustfile env fuel n = Some r)
  ∧ (nearest_first env (ancestors cs) (candidate_names n) = None →
     find_locustfile env fuel n = Some None).
Proof.
  intros Hcwd Hcs Hn Hfuel. split; [|split].
  - intros k. rewrite (abspath_path_after env cs) by done.
    rewrite split_tail_abs_of by by apply ancestor_plain.
    apply bool_decide_ext. unfold ancestor. split.
    + intros Hnil%(f_equal length). rewrite length_take in Hnil. simpl in Hnil. lia.
    + intros Hk. replace (length cs - k) with 0 by lia. done.
  - eexists. by apply find_locustfile_bare.
  - intros Hnone. rewrite (find_locustfile_bare env cs) by done. by rewrite Hnone.
Qed.

Lemma find_locustfile_stops_at_root_witness :
  find_locustfile (proj_env (flags false false false false false false) ["Foo"] None)
    3 "locust"
  = Some None.
Proof.
  apply (find_locustfile_stops_at_root
           (proj_env (flags false false false false false false) ["Foo"] None)
           ["proj"; "tests"] "locust" 3).
  - reflexivity.
  - repeat constructor.
  - reflexivity.
  - simpl. lia.
  - reflexivity.
Defined.

(** ** [load_locustfile] and the search list *)

Lemma py_index_Some d l i :
  py_index d l = Some i → take i l ++ d :: drop (S i) l = l ∧ (i < length l)%nat.
Proof.
  revert i. induction l as [|y l IH]; intros i; simpl; [done|].
  destruct (String.eqb_spec y d) as [->|Hne].
  - intros [= <-]. simpl. split; [done|lia].
  - destruct (py_index d l) as [j|]; [|done]. intros [= <-].
    destruct (IH j eq_refl) as [Heq Hlt]. simpl. split; [by rewrite Heq|lia].
Qed.

Lemma py_index_None d l : py_index d l = None → d ∉ l.
Proof.
  induction l as [|y l IH]; simpl; [intros _; apply not_elem_of_nil|].
  destruct (String.eqb_spec y d) as [->|Hne]; [done|].
  destruct (py_index d l); [done|]. intros _.
  apply not_elem_of_cons. split; [congruence|by apply IH].
Qed.

Lemma py_index_elem d l : d ∈ l → is_Some (py_index d l).
Proof.
  intros Hin. destruct (py_index d l) eqn:E; [by eexists|].
  by apply py_index_None in E.
Qed.

Lemma py_insert_0 {A} (x : A) l : py_insert 0 x l = x :: l.
Proof. reflexivity. Qed.

Lemma py_del_0 {A} (x : A) l : py_del 0 (x :: l) = Some l.
Proof. reflexivity. Qed.

Lemma py_del_middle {A} (l1 : list A) x l2 :
  py_del (length l1) (l1 ++ x :: l2) = Some (l1 ++ l2).
Proof.
  unfold py_del. rewrite length_app. simpl.
  destruct (Nat.ltb_spec (length l1) (length l1 + S (length l2))); [|lia].
  rewrite take_app_length.
  replace (S (length l1)) with (length (l1 ++ [x])) by (rewrite length_app; simpl; lia).
  rewrite (cons_middle x l1 l2), app_assoc, drop_app_length. done.
Qed.

Lemma py_insert_middle {A} (l1 : list A) x l2 :
  py_insert (length l1) x (l1 ++ l2) = l1 ++ x :: l2.
Proof. unfold py_insert. by rewrite take_app_length, drop_app_length. Qed.

Lemma moved_to_front_absent d l : py_index d l = None → moved_to_front d l = d :: l.
Proof. unfold moved_to_front. by intros ->. Qed.

Lemma moved_to_front_first d l : py_index d l = Some 0%nat → moved_to_front d l = l.
Proof.
  intros Hi. unfold moved_to_front. rewrite Hi.
  by destruct (py_index_Some _ _ _ Hi) as [Heq _].
Qed.

Lemma moved_to_front_del d l i :
  py_index d l = Some i →
  py_del (i + 1) (py_insert 0 d l) = Some (moved_to_front d l).
Proof.
  intros Hi. unfold moved_to_front. rewrite Hi.
  destruct (py_index_Some _ _ _ Hi) as [Heq Hlt].
  rewrite py_insert_0. rewrite <- Heq at 1.
  replace (i + 1)%nat with (length (d :: take i l)); last first.
  { simpl. rewrite length_take. lia. }
  rewrite app_comm_cons. by rewrite py_del_middle.
Qed.

Lemma moved_to_front_restore d l i :
  py_index d l = Some i →
  py_insert (i + 1) d (moved_to_front d l) = d :: l.
Proof.
  intros Hi. unfold moved_to_front. rewrite Hi.
  destruct (py_index_Some _ _ _ Hi) as [Heq Hlt].
  replace (i + 1)%nat with (length (d :: take i l)); last first.
  { simpl. rewrite length_take. lia. }
  rewrite app_comm_cons, py_insert_middle. simpl. by rewrite Heq.
Qed.

Lemma elem_of_py_index d l : d ∈ l ↔ is_Some (py_index d l).
Proof.
  split; [apply py_index_elem|]. intros [i Hi].
  destruct (py_index_Some _ _ _ Hi) as [Heq _]. rewrite <- Heq. set_solver.
Qed.

Lemma load_locustfile_import_fails env path l tr e l2 :
  env_import env (module_name path) (moved_to_front (fst (posixpath.split path)) l)
    = (Raise e, l2) →
  load_locustfile env path {| sys_path := l; trace := tr |}
  = (Raise e, {| sys_path := l2; trace := tr |}).
Proof.
  unfold load_locustfile, module_name.
  destruct (posixpath.split path) as [d f]. cbn [fst snd].
  intros Himp. run_py.
  case_bool_decide as Hin; cbn [negb]; run_py.
  - apply elem_of_py_index in Hin as [i Hi]. rewrite Hi.
    destruct i as [|i]; cbn [Nat.eqb negb]; run_py.
    + rewrite moved_to_front_first in Himp by done. by rewrite Himp.
    + rewrite moved_to_front_del by done. run_py. by rewrite Himp.
  - assert (py_index d l = None) as Hi.
    { destruct (py_index d l) eqn:E; [|done]. exfalso. apply Hin, elem_of_py_index. eauto. }
    rewrite py_insert_0. rewrite moved_to_front_absent in Himp by done. by rewrite Himp.
Qed.

Lemma load_locustfile_import_returns env path l tr m :
  env_import env (module_name path) (moved_to_front (fst (posixpath.split path)) l)
    = (Ret m, moved_to_front (fst (posixpath.split path)) l) →
  load_locustfile env path {| sys_path := l; trace := tr |}
  = (Ret (mod_doc m, catalog env m), {| sys_path := l; trace := tr |}).
Proof.
  unfold load_locustfile, module_name, catalog.
  destruct (posixpath.split path) as [d f]. cbn [fst snd].
  intros Himp. run_py.
  case_bool_decide as Hin; cbn [negb]; run_py.
  - apply elem_of_py_index in Hin as [i Hi]. rewrite Hi.
    destruct i as [|i]; cbn [Nat.eqb negb]; run_py.
    + rewrite moved_to_front_first in Himp by done. by rewrite Himp.
    + rewrite moved_to_front_del by done. run_py. rewrite Himp.
      cbn [sys_path trace].
      rewrite moved_to_front_restore by done. by rewrite py_del_0.
  - assert (py_index d l = None) as Hi.
    { destruct (py_index d l) eqn:E; [|done]. exfalso. apply Hin, elem_of_py_index. eauto. }
    rewrite py_insert_0. rewrite moved_to_front_absent in Himp by done.
    rewrite Himp. cbn [sys_path trace]. by rewrite py_del_0.
Qed.

(** The launcher's own effects never touch the trace while loading. *)
Lemma load_locustfile_trace env path w :
  trace (snd (load_locustfile env path w)) = trace w.
Proof.
  unfold load_locustfile.
  destruct (posixpath.split path) as [d f]. destruct w as [l tr]. run_py.
  case_bool_decide as Hin; cbn [negb]; run_py.
  - destruct (py_index d l) as [i|]; [|done].
    destruct i as [|i]; cbn [Nat.eqb negb]; run_py.
    + destruct (env_import env _ _) as [[m| |] l2]; done.
    + destruct (py_del _ _) as [l1|]; [|done]. cbn [sys_path trace].
      destruct (env_import env _ _) as [[m| |] l2]; try done.
      cbn [sys_path trace]. by destruct (py_del _ _).
  - destruct (env_import env _ _) as [[m| |] l2]; try done.
    cbn [sys_path trace]. by destruct (py_del _ _).
Qed.

(** ** The runs of [main] *)

Lemma main_bootstrap_run env cls w :
  main_bootstrap env cls w
  = (Raise (SystemExit 0),
     {| sys_path := sys_path w; trace := trace w ++ bootstrap_events env cls |}).
Proof.
  destruct w as [l tr].
  unfold main_bootstrap, bootstrap_events, web_events, runner_events, wait_events,
    interrupted, farewell.
  destruct (no_web (env_options env)), (slave (env_options env)),
    (master (env_options env)), (print_stats (env_options env));
    cbn [negb andb orb]; run_py;
    (destruct (env_interrupt env) as [t|]; [destruct (t <? 100000)%Z|]);
    cbn [sys_path trace app]; rewrite <- ?app_assoc; reflexivity.
Qed.

Lemma print_names_run names w :
  print_names names w
  = (Ret tt, {| sys_path := sys_path w;
                trace := trace w ++ map (λ name, Print ("    " +:+ name)) names |}).
Proof.
  revert w. induction names as [|name names IH]; intros [l tr].
  - cbn. by rewrite app_nil_r.
  - cbn [print_names map]. run_py. rewrite IH. cbn [sys_path trace].
    by rewrite <- app_assoc.
Qed.

Lemma main_selected env fuel w cls w2 :
  selected env fuel w = Some (cls, w2) →
  main env fuel w = main_bootstrap env cls w2.
Proof.
  unfold selected, main. run_py. fold (started w).
  destruct (show_version (env_options env)); [done|].
  destruct (find_locustfile env fuel _) as [[p|]|]; [|done|done]. run_py.
  destruct (String.eqb p EmptyString); [done|]. cbn [negb]. run_py.
  destruct (load_locustfile env p (started w)) as [[[doc locusts]| |] w']; [|done|done].
  destruct (list_commands (env_options env)); [done|]. run_py.
  destruct (env_arguments env) as [|a args]; [done|].
  cbn [lookup list_lookup]. run_py.
  destruct (locusts !! a) as [c|]; [|done].
  by intros [= -> ->].
Qed.

Lemma selected_trace env fuel w cls w2 :
  selected env fuel w = Some (cls, w2) → trace w2 = trace w ++ [Print EmptyString].
Proof.
  unfold selected.
  destruct (show_version (env_options env)); [done|].
  destruct (find_locustfile env fuel _) as [[p|]|]; [|done|done].
  destruct (String.eqb p EmptyString); [done|].
  pose proof (load_locustfile_trace env p (started w)) as Htr.
  destruct (load_locustfile env p (started w)) as [[[doc locusts]| |] w']; [|done|done].
  destruct (list_commands (env_options env)); [done|].
  destruct (env_arguments env) as [|a args]; [done|].
  destruct (locusts !! a) as [c|]; [|done].
  by intros [= _ <-].
Qed.

Lemma main_unselected_trace env fuel w :
  selected env fuel w = None →
  ∃ outs, trace (snd (main env fuel w)) = trace w ++ outs
          ∧ Forall (λ e, is_output e = true) outs.
Proof.
  assert (∀ tr outs (e : event),
    Forall (λ e, is_output e = true) outs → is_output e = true →
    ∃ outs', (tr ++ outs) ++ [e] = tr ++ outs'
             ∧ Forall (λ e, is_output e = true) outs') as Hsnoc.
  { intros tr outs e Houts He. exists (outs ++ [e]).
    rewrite app_assoc. split; [done|]. apply Forall_app. by repeat constructor. }
  assert (∀ tr (e : event), is_output e = true →
    ∃ outs', tr ++ [e] = tr ++ outs'
             ∧ Forall (λ e, is_output e = true) outs') as Hone.
  { intros tr e He. exists [e]. by repeat constructor. }
  unfold selected, main. run_py. fold (started w).
  destruct (show_version (env_options env)).
  { intros _. cbn [snd trace]. by apply Hsnoc; repeat constructor. }
  destruct (find_locustfile env fuel _) as [[p|]|]; run_py; cycle 1.
  { intros _. cbn [snd trace]. by apply Hsnoc; repeat constructor. }
  { intros _. cbn [snd trace]. by apply Hone. }
  destruct (String.eqb p EmptyString); cbn [negb]; run_py.
  { intros _. cbn [snd trace]. by apply Hsnoc; repeat constructor. }
  pose proof (load_locustfile_trace env p (started w)) as Htr.
  destruct (load_locustfile env p (started w)) as [[[doc locusts]| |] w'];
    cbn [snd] in Htr; cycle 1.
  { intros _. cbn [snd]. rewrite Htr. by apply Hone. }
  { intros _. cbn [snd]. rewrite Htr. by apply Hone. }
  destruct (list_commands (env_options env)); run_py.
  { intros _. rewrite print_names_run. cbn [snd sys_path trace].
    rewrite Htr. unfold started. cbn [trace].
    eexists (_ :: _ :: map _ _). rewrite <- !app_assoc. split; [done|].
    repeat constructor. by apply Forall_map, Forall_true. }
  destruct (env_arguments env) as [|a args]; cbn [lookup list_lookup]; run_py.
  { intros _. cbn [snd]. rewrite Htr. by apply Hone. }
  destruct (locusts !! a) as [c|]; [done|]. run_py.
  intros _. cbn [snd trace]. rewrite Htr. by apply Hsnoc; repeat constructor.
Qed.

Lemma run_trace {A} (m : Py A) w : snd (run m w) = snd (m w).
Proof. unfold run. by destruct (m w) as [[a|[]|] w']. Qed.

Lemma launch_selected env fuel path0 cls w2 :
  selected env fuel {| sys_path := path0; trace := [] |} = Some (cls, w2) →
  launch env fuel path0
  = (Exited 0, {| sys_path := sys_path w2;
                  trace := Print EmptyString :: bootstrap_events env cls |}).
Proof.
  intros Hsel. unfold launch, run.
  rewrite (main_selected _ _ _ _ _ Hsel), main_bootstrap_run.
  by rewrite (selected_trace _ _ _ _ _ Hsel).
Qed.

(** Whatever holds of every printed line and of every event of the
    bootstrap holds of every event of a run. *)
Lemma launch_events (P : event → bool) env fuel path0 :
  (∀ e, is_output e = true → P e = true) →
  (∀ cls, forallb P (bootstrap_events env cls) = true) →
  Forall (λ e, P e = true) (trace (snd (launch env fuel path0))).
Proof.
  intros Hout Hboot.
  destruct (selected env fuel {| sys_path := path0; trace := [] |})
    as [[cls w2]|] eqn:Hsel.
  - rewrite (launch_selected _ _ _ _ _ Hsel). cbn [snd trace].
    constructor; [by apply Hout|].
    apply Forall_forall. intros e He%list_elem_of_In. revert e He.
    apply forallb_forall, Hboot.
  - unfold launch. rewrite run_trace.
    destruct (main_unselected_trace _ _ _ Hsel) as (outs & -> & Houts).
    cbn [trace app]. eapply Forall_impl; [exact Houts|]. intros e. apply Hout.
Qed.

(** ** The claims about the load *)

(** C1, at a locustfile whose import raises: the statements that put the
    search list back come after the import and are skipped, so the error
    leaves the list changed. With the directory absent it stays inserted
    at the front; with the directory present further down it stays moved
    to the front. In neither case is the search list after the error the
    one before the call. *)
Theorem failing_import_skips_cleanup :
  (load_locustfile broken_env "/proj/tasks.py"
     {| sys_path := ["/usr/lib"]; trace := [] |}
   = (Raise (OtherError "NameError"),
      {| sys_path := ["/proj"; "/usr/lib"]; trace := [] |})
   ∧ ¬ search_list_kept broken_env "/proj/tasks.py"
         {| sys_path := ["/usr/lib"]; trace := [] |})
  ∧ (load_locustfile broken_env "/proj/tasks.py"
       {| sys_path := ["/usr/lib"; "/proj"; "/srv"]; trace := [] |}
     = (Raise (OtherError "NameError"),
        {| sys_path := ["/proj"; "/usr/lib"; "/srv"]; trace := [] |})
     ∧ ¬ search_list_kept broken_env "/proj/tasks.py"
           {| sys_path := ["/usr/lib"; "/proj"; "/srv"]; trace := [] |}).
Proof. repeat split; vm_compute; (reflexivity || intros [=]). Qed.

(** The two ways out of [load_locustfile]. When the import returns and has
    left the search list as it found it, the search list is put back,
    element for element, wherever the directory of the locustfile stood in
    it. When the import raises, the error propagates at once and the
    search list stays as the import left it. *)
Theorem load_locustfile_search_list env path l tr :
  let d := fst (posixpath.split path) in
  (∀ m,
     env_import env (module_name path) (moved_to_front d l)
       = (Ret m, moved_to_front d l) →
     load_locustfile env path {| sys_path := l; trace := tr |}
     = (Ret (mod_doc m, catalog env m), {| sys_path := l; trace := tr |}))
  ∧
  (∀ e l2,
     env_import env (module_name path) (moved_to_front d l) = (Raise e, l2) →
     load_locustfile env path {| sys_path := l; trace := tr |}
     = (Raise e, {| sys_path := l2; trace := tr |})).
Proof.
  split.
  - intros m Himp. by apply load_locustfile_import_returns.
  - intros e l2 Himp. by apply load_locustfile_import_fails.
Qed.

Lemma load_locustfile_search_list_witness :
  load_locustfile (proj_env (flags false false false false false false) ["Foo"] None)
    "/proj/tasks.py" {| sys_path := ["/usr/lib"; "/proj"; "/srv"]; trace := [] |}
  = (Ret (None, catalog (proj_env (flags false false false false false false) ["Foo"] None)
                  tasks_module),
     {| sys_path := ["/usr/lib"; "/proj"; "/srv"]; trace := [] |})
  ∧
  load_locustfile broken_env "/proj/tasks.py" {| sys_path := ["/usr/lib"]; trace := [] |}
  = (Raise (OtherError "NameError"),
     {| sys_path := ["/proj"; "/usr/lib"]; trace := [] |}).
Proof.
  split.
  - apply (proj1 (load_locustfile_search_list _ "/proj/tasks.py" _ [])
             tasks_module).
    reflexivity.
  - apply (proj2 (load_locustfile_search_list broken_env "/proj/tasks.py"
                    ["/usr/lib"] [])).
    reflexivity.
Defined.

Lemma filter_fst_NoDup {A} (f : string * A → bool) (l : list (string * A)) :
  NoDup (l.*1) → NoDup ((List.filter f l).*1).
Proof.
  induction l as [|x l IH]; simpl; [done|].
  intros [Hx Hl]%NoDup_cons. destruct (f x); simpl; [|by apply IH].
  apply NoDup_cons. split; [|by apply IH].
  intros Hin. apply Hx. apply list_elem_of_fmap in Hin as (y & -> & Hy).
  apply list_elem_of_fmap. exists y. split; [done|].
  apply list_elem_of_In, filter_In in Hy as [Hy _]. by apply list_elem_of_In.
Qed.

Lemma catalog_lookup env m name v :
  catalog env m !! name = Some v
  ↔ mod_vars m !! name = Some v ∧ is_locust env (name, v) = true.
Proof.
  unfold catalog. rewrite <- elem_of_list_to_map
    by apply filter_fst_NoDup, NoDup_fst_map_to_list.
  rewrite list_elem_of_In, filter_In, <- list_elem_of_In.
  by rewrite elem_of_map_to_list.
Qed.

Lemma is_locust_spec env name v :
  is_locust env (name, v) = true
  ↔ isclass v = true ∧ issubclass v (env_Locust env) = true
    ∧ PyStr.startswith name "_" = false.
Proof.
  unfold is_locust, _internals, py_in. cbn [existsb negb].
  rewrite andb_true_r, !andb_true_iff, negb_true_iff. tauto.
Qed.

Lemma pyclass_eqb_refl : ∀ c, pyclass_eqb c c = true.
Proof.
  fix IH 1. intros [n bs]. cbn [pyclass_eqb]. rewrite String.eqb_refl.
  cbn [andb]. induction bs as [|b bs IHbs]; [done|].
  by rewrite IH, IHbs.
Qed.

Lemma is_locust_base_class env name :
  is_locust env (name, VClass (env_Locust env)) = negb (PyStr.startswith name "_").
Proof.
  unfold is_locust, _internals, py_in. cbn [existsb negb isclass issubclass andb].
  rewrite andb_true_r.
  destruct (env_Locust env) as [n bs] eqn:E. cbn [class_issubclass].
  by rewrite pyclass_eqb_refl.
Qed.

(** C2, at the module [{Foo, _Bar, Base}]: the catalog that
    [load_locustfile] returns holds [Foo], leaves out [_Bar], and holds
    [Base], the base class of the harness itself, since [_internals] is
    empty. *)
Theorem catalog_keeps_base_class :
  let env := proj_env (flags false false false false false false) ["Foo"] None in
  ∃ locusts,
    load_locustfile env "/proj/tasks.py" {| sys_path := ["/usr/lib"]; trace := [] |}
    = (Ret (None, locusts), {| sys_path := ["/usr/lib"]; trace := [] |})
    ∧ locusts !! "Foo" = Some (VClass Foo)
    ∧ locusts !! "_Bar" = None
    ∧ locusts !! "Base" = Some (VClass (env_Locust env)).
Proof.
  intros env. exists (catalog env tasks_module). split.
  - by apply (load_locustfile_import_returns env "/proj/tasks.py" _ _ tasks_module).
  - vm_compute. done.
Qed.

(** ** The claims about the command line and the topologies *)

(** With both [--master] and [--slave], the run of the example project
    constructs a runner and exits with status zero. *)
Lemma master_and_slave_not_rejected :
  ¬ rejected_before_runner
      (launch (proj_env (flags false false false false true true) ["Foo"] None)
              3 ["/usr/lib"]).
Proof. intros [Hstatus _]. by apply Hstatus. Qed.

(** C3, amended. With both [--master] and [--slave] set nothing is
    rejected: a run that gets to the bootstrap constructs the master runner
    and nothing else (no slave or local runner, no web monitor, no stats
    task), then waits. *)
Theorem master_and_slave_runs_master env fuel path0 cls w2 :
  master (env_options env) = true →
  slave (env_options env) = true →
  selected env fuel {| sys_path := path0; trace := [] |} = Some (cls, w2) →
  launch env fuel path0
  = (Exited 0,
     {| sys_path := sys_path w2;
        trace :=
          Print EmptyString
          :: NewMasterLocustRunner cls
               (hatch_rate (env_options env)) (num_clients (env_options env))
               (redis_host (env_options env)) (redis_port (env_options env))
          :: wait_events env |}).
Proof.
  intros Hm Hs Hsel. rewrite (launch_selected _ _ _ _ _ Hsel).
  unfold bootstrap_events, web_events, runner_events. rewrite Hm, Hs.
  by rewrite andb_false_r.
Qed.

Lemma master_and_slave_runs_master_witness :
  launch (proj_env (flags false false true false true true) ["Foo"] None) 3 ["/usr/lib"]
  = (Exited 0,
     {| sys_path := ["/usr/lib"];
        trace := [Print EmptyString;
                  NewMasterLocustRunner (VClass Foo) 1 1 "localhost" 6379;
                  Sleep 100000] |}).
Proof.
  apply (master_and_slave_runs_master
           (proj_env (flags false false true false true true) ["Foo"] None)
           3 ["/usr/lib"] (VClass Foo)
           {| sys_path := ["/usr/lib"]; trace := [Print EmptyString] |});
    reflexivity.
Defined.

(** C4, at a command line without a positional argument: [arguments[0]]
    raises [IndexError], which nothing catches, so the run ends in a
    traceback and prints no diagnostic of its own. *)
Theorem missing_argument_is_a_traceback :
  launch (proj_env (flags false false false false false false) [] None) 3 ["/usr/lib"]
  = (Traceback IndexError,
     {| sys_path := ["/usr/lib"]; trace := [Print EmptyString] |}).
Proof. vm_compute. reflexivity. Qed.

(** The other half of the validation: a name that is not in the catalog
    is reported on the error stream and the run exits with status one. *)
Lemma unknown_scenario_is_reported env fuel path0 p doc locusts w2 a args :
  show_version (env_options env) = false →
  find_locustfile env fuel (locustfile (env_options env)) = Some (Some p) →
  p ≠ EmptyString →
  load_locustfile env p (started {| sys_path := path0; trace := [] |})
    = (Ret (doc, locusts), w2) →
  list_commands (env_options env) = false →
  env_arguments env = a :: args →
  locusts !! a = None →
  launch env fuel path0
  = (Exited 1,
     {| sys_path := sys_path w2;
        trace := [Print EmptyString; StderrWrite ("Unknown Locust: " +:+ a +:+ newline)] |}).
Proof.
  intros Hv Hfind Hp Hload Hlist Hargs Hlook.
  pose proof (load_locustfile_trace env p (started {| sys_path := path0; trace := [] |}))
    as Htr. rewrite Hload in Htr. cbn in Htr.
  unfold started in Hload. cbn [sys_path trace] in Hload.
  unfold launch, run, main. run_py. rewrite Hv, Hfind. run_py.
  apply String.eqb_neq in Hp. rewrite Hp. cbn [negb]. run_py.
  rewrite Hload, Hlist. run_py.
  rewrite Hargs. cbn [lookup list_lookup]. run_py. rewrite Hlook. run_py.
  by rewrite Htr.
Qed.

(** C7. In a standalone run with [--no-web], whatever [--print-stats]
    is, the web monitor is never started; and a run that gets to the
    bootstrap constructs the local runner, starts hatching right after it
    and then starts the stats-printing task, before it waits. *)
Theorem standalone_no_web_hatches_at_once env fuel path0 :
  master (env_options env) = false →
  slave (env_options env) = false →
  no_web (env_options env) = true →
  Forall (λ e, is_web e = false) (trace (snd (launch env fuel path0)))
  ∧ ∀ cls w2,
      selected env fuel {| sys_path := path0; trace := [] |} = Some (cls, w2) →
      launch env fuel path0
      = (Exited 0,
         {| sys_path := sys_path w2;
            trace :=
              Print EmptyString
              :: NewLocalLocustRunner cls
                   (hatch_rate (env_options env)) (num_clients (env_options env))
              :: StartHatching
              :: SpawnPrintStats
              :: wait_events env |}).
Proof.
  intros Hm Hs Hw. split.
  - eapply Forall_impl.
    + apply (launch_events (λ e, negb (is_web e))).
      * by intros [].
      * intros cls. unfold bootstrap_events, web_events, runner_events, wait_events,
          farewell. rewrite Hm, Hs, Hw.
        destruct (print_stats (env_options env)), (interrupted env); reflexivity.
    + intros e He. by apply negb_true_iff.
  - intros cls w2 Hsel. rewrite (launch_selected _ _ _ _ _ Hsel).
    unfold bootstrap_events, web_events, runner_events. rewrite Hm, Hs, Hw.
    by rewrite orb_true_r.
Qed.

Lemma standalone_no_web_hatches_at_once_witness :
  launch (proj_env (flags false false false true false false) ["Foo"] None) 3 ["/usr/lib"]
  = (Exited 0,
     {| sys_path := ["/usr/lib"];
        trace := [Print EmptyString; NewLocalLocustRunner (VClass Foo) 1 1;
                  StartHatching; SpawnPrintStats; Sleep 100000] |}).
Proof.
  apply (proj2 (standalone_no_web_hatches_at_once
                  (proj_env (flags false false false true false false) ["Foo"] None)
                  3 ["/usr/lib"] eq_refl eq_refl eq_refl)
               (VClass Foo) {| sys_path := ["/usr/lib"]; trace := [Print EmptyString] |}).
  reflexivity.
Defined.

(** Without any interrupt the run of the example project still exits. *)
Lemma wait_ends_without_interrupt :
  ¬ waits_without_timeout
      (proj_env (flags false false false false false false) ["Foo"] None)
      3 ["/usr/lib"].
Proof.
  intros H.
  by apply (H (VClass Foo) {| sys_path := ["/usr/lib"]; trace := [Print EmptyString] |}
              eq_refl eq_refl 0%Z).
Qed.

(** C8, amended. Under every topology, after the runner is constructed
    the process sleeps for 100000 seconds. An interrupt during that sleep
    prints the farewell and the process exits with status zero; with no
    interrupt during it, the sleep ends and the process exits with status
    zero without the farewell. *)
Theorem wait_is_a_long_sleep env fuel path0 cls w2 :
  selected env fuel {| sys_path := path0; trace := [] |} = Some (cls, w2) →
  ∃ started_events,
    started_events
    = Print EmptyString
      :: web_events (env_options env) cls ++ runner_events (env_options env) cls
    ∧ launch env fuel path0
      = (Exited 0,
         {| sys_path := sys_path w2;
            trace :=
              started_events
              ++ Sleep 100000 :: (if interrupted env then farewell else []) |}).
Proof.
  intros Hsel. eexists. split; [reflexivity|].
  rewrite (launch_selected _ _ _ _ _ Hsel).
  unfold bootstrap_events, wait_events.
  cbn [app]. by rewrite <- app_assoc.
Qed.

Lemma wait_is_a_long_sleep_witness :
  ∃ started_events,
    started_events
    = [Print EmptyString;
       NewSlaveLocustRunner (VClass Foo) 1 1 "localhost" 6379]
    ∧ launch (proj_env (flags false false false false false true) ["Foo"] (Some 42%Z))
             3 ["/usr/lib"]
      = (Exited 0,
         {| sys_path := ["/usr/lib"];
            trace := started_events
                     ++ [Sleep 100000; Print EmptyString; Print "Exiting, bye..";
                         Print EmptyString] |}).
Proof.
  apply (wait_is_a_long_sleep
           (proj_env (flags false false false false false true) ["Foo"] (Some 42%Z))
           3 ["/usr/lib"] (VClass Foo)
           {| sys_path := ["/usr/lib"]; trace := [Print EmptyString] |}).
  reflexivity.
Defined.

(** C9, at [--shortlist]: the switch is parsed and never read. With a
    scenario name the run goes on to the bootstrap, and without one it ends
    in the traceback of C4; no name is listed either way. *)
Theorem shortlist_is_ignored :
  launch (proj_env (flags false true false false false false) ["Foo"] None) 3 ["/usr/lib"]
  = (Exited 0,
     {| sys_path := ["/usr/lib"];
        trace := [Print EmptyString; SpawnWeb (VClass Foo) 1 1;
                  NewLocalLocustRunner (VClass Foo) 1 1; Sleep 100000] |})
  ∧
  launch (proj_env (flags false true false false false false) [] None) 3 ["/usr/lib"]
  = (Traceback IndexError,
     {| sys_path := ["/usr/lib"]; trace := [Print EmptyString] |}).
Proof. split; vm_compute; reflexivity. Qed.

(** The other half of C9: with [--list], once the locustfile is found and
    loaded, the names of the catalog are printed and the run exits with
    status zero before any runner or task. *)
Lemma list_commands_prints_catalog env fuel path0 p doc locusts w2 :
  show_version (env_options env) = false →
  find_locustfile env fuel (locustfile (env_options env)) = Some (Some p) →
  p ≠ EmptyString →
  load_locustfile env p (started {| sys_path := path0; trace := [] |})
    = (Ret (doc, locusts), w2) →
  list_commands (env_options env) = true →
  launch env fuel path0
  = (Exited 0,
     {| sys_path := sys_path w2;
        trace :=
          Print EmptyString
          :: Print "Available Locusts:"
          :: map (λ name, Print ("    " +:+ name)) (map fst (map_to_list locusts)) |}).
Proof.
  intros Hv Hfind Hp Hload Hlist.
  pose proof (load_locustfile_trace env p (started {| sys_path := path0; trace := [] |}))
    as Htr. rewrite Hload in Htr. cbn in Htr.
  unfold started in Hload. cbn [sys_path trace] in Hload.
  unfold launch, run, main. run_py. rewrite Hv, Hfind. run_py.
  apply String.eqb_neq in Hp. rewrite Hp. cbn [negb]. run_py.
  rewrite Hload, Hlist. run_py.
  rewrite print_names_run. cbn [sys_path trace]. rewrite Htr. reflexivity.
Qed.

(** C10. With [--master] or [--slave], the stats-printing task is never
    started, whatever [--print-stats] is. *)
Theorem stats_task_only_standalone env fuel path0 :
  master (env_options env) = true ∨ slave (env_options env) = true →
  SpawnPrintStats ∉ trace (snd (launch env fuel path0)).
Proof.
  intros Hdist Hin.
  assert (Forall (λ e, negb (is_stats e) = true) (trace (snd (launch env fuel path0))))
    as Hall.
  { apply launch_events.
    - by intros [].
    - intros cls. unfold bootstrap_events, web_events, runner_events, wait_events,
        farewell.
      destruct Hdist as [-> | ->];
        destruct (no_web (env_options env)), (print_stats (env_options env)),
          (interrupted env);
        try destruct (master (env_options env));
        try destruct (slave (env_options env)); reflexivity. }
  rewrite Forall_forall in Hall. by specialize (Hall _ Hin).
Qed.

Lemma stats_task_only_standalone_witness :
  SpawnPrintStats
  ∉ trace (snd (launch (proj_env (flags false false true true true false) ["Foo"] None)
                       3 ["/usr/lib"])).
Proof.
  apply (stats_task_only_standalone
           (proj_env (flags false false true true true false) ["Foo"] None)).
  left. reflexivity.
Defined.

(** * Further properties *)

(** ** [find_locustfile] *)

Lemma rfind_contains (s : string) (c : ascii) :
  PyStr.contains s c = true → (0 <= PyStr.rfind s c)%Z.
Proof.
  induction s as [|a s IH]; simpl; [done|].
  destruct (0 <=? PyStr.rfind s c)%Z eqn:E.
  - apply Z.leb_le in E. lia.
  - destruct (Ascii.eqb a c); simpl; [lia|].
    intros H. apply IH in H. apply Z.leb_gt in E. lia.
Qed.

Lemma rstrip_empty (s : string) (c : ascii) :
  PyStr.rstrip s c = EmptyString → s = PyStr.mul c (String.length s).
Proof.
  induction s as [|a s IH]; simpl; [done|].
  destruct (PyStr.rstrip s c) eqn:E; [|done].
  destruct (Ascii.eqb_spec a c) as [->|]; [|done].
  intros _. by rewrite <- IH.
Qed.

Lemma dirname_sep (n : string) :
  PyStr.contains n "/" = true → posixpath.dirname n ≠ EmptyString.
Proof.
  intros Hn. pose proof (rfind_contains _ _ Hn) as Hr.
  unfold posixpath.dirname, posixpath.sep.
  destruct (Z.to_nat (PyStr.rfind n "/" + 1)) as [|i] eqn:Ei; [lia|].
  destruct n as [|a n]; [done|]. cbn [PyStr.take].
  set (head := String a (PyStr.take i n)).
  cbn [String.eqb negb andb].
  destruct (String.eqb head (PyStr.mul "/" (String.length head))) eqn:E; [done|].
  cbn [negb]. intros Hs%rstrip_empty. apply String.eqb_neq in E. done.
Qed.

Lemma normpath_not_empty (p : string) : posixpath.normpath p ≠ EmptyString.
Proof.
  unfold posixpath.normpath. destruct (String.eqb p EmptyString); [done|].
  cbv zeta. match goal with |- (if String.eqb ?s _ then _ else _) ≠ _ =>
    destruct (String.eqb_spec s EmptyString) end; done.
Qed.

Lemma abspath_not_empty cwd p : posixpath.abspath cwd p ≠ EmptyString.
Proof. unfold posixpath.abspath. destruct (posixpath.isabs p); apply normpath_not_empty. Qed.

Lemma find_explicit_not_empty env names p :
  find_explicit env names = Some p → p ≠ EmptyString.
Proof.
  induction names as [|name names IH]; [done|]. cbn [find_explicit].
  destruct (_ && _); [|done]. intros [= <-]. apply abspath_not_empty.
Qed.

Lemma find_in_dir_not_empty env path names p :
  find_in_dir env path names = Some p → p ≠ EmptyString.
Proof.
  induction names as [|name names IH]; [done|]. cbn [find_in_dir].
  destruct (_ && _); [|done]. intros [= <-]. apply abspath_not_empty.
Qed.

(** [find_locustfile] never returns the empty string: for what it returns,
    the test [not locustfile] of [main] fails. *)
Lemma find_locustfile_not_empty env fuel n p :
  find_locustfile env fuel n = Some (Some p) → p ≠ EmptyString.
Proof.
  unfold find_locustfile. destruct (negb _).
  - intros [= H]. by eapply find_explicit_not_empty.
  - generalize ".". induction fuel as [|fuel IH]; intros path; [done|].
    cbn [find_upwards]. destruct (negb _); [|done].
    destruct (find_in_dir env path _) as [q|] eqn:E.
    + intros [= <-]. by eapply find_in_dir_not_empty.
    + apply IH.
Qed.

Lemma parent_steps_S k : parent_steps (S k) = ".." +:+ String "/" (parent_steps k).
Proof. reflexivity. Qed.

Lemma parent_steps_split k x :
  parent_steps (S k) +:+ x = ".." +:+ String "/" (parent_steps k +:+ x).
Proof. reflexivity. Qed.

Lemma parent_steps_relative k m :
  PyStr.contains m "/" = false → relative (parent_steps k +:+ m).
Proof.
  intros Hm. destruct k as [|k]; [by apply plain_relative|].
  by rewrite parent_steps_split.
Qed.

Lemma parent_steps_contains k m :
  (0 < k)%nat → PyStr.contains (parent_steps k +:+ m) "/" = true.
Proof. intros Hk. destruct k as [|k]; [lia|]. by rewrite parent_steps_split. Qed.

Lemma parent_steps_no_tilde k m :
  (0 < k)%nat → PyStr.startswith (parent_steps k +:+ m) "~" = false.
Proof. intros Hk. destruct k as [|k]; [lia|]. by rewrite parent_steps_split. Qed.

Lemma norm_from_parent_steps st k r :
  Forall (λ c, plain_name c = true) st →
  norm_from st (parent_steps k +:+ r) = norm_from (take (length st - k) st) r.
Proof.
  revert st. induction k as [|k IH]; intros st Hst.
  - change (parent_steps 0 +:+ r) with r. by rewrite Nat.sub_0_r, firstn_all.
  - rewrite parent_steps_split, norm_from_app_sep.
    change (norm_from st "..") with (posixpath.normpath_step 1 st "..").
    rewrite step_dotdot by done. rewrite removelast_take.
    rewrite IH by (by apply Forall_take).
    rewrite take_take, length_take. do 2 f_equal. lia.
Qed.

Lemma endswith_after_sep (x m suf : string) :
  PyStr.contains suf "/" = false →
  PyStr.endswith (x +:+ String "/" m) suf = PyStr.endswith m suf.
Proof.
  intros Hsuf.
  assert (∀ y, PyStr.contains y "/" = true → String.eqb y suf = false) as Hne.
  { intros y Hy. apply String.eqb_neq. intros ->. congruence. }
  induction x as [|a x IH].
  - rewrite append_nil_l. cbn [PyStr.endswith]. rewrite Hne; [done|].
    simpl. done.
  - rewrite append_cons. cbn [PyStr.endswith]. rewrite IH. rewrite Hne; [done|].
    simpl. rewrite contains_app. simpl. by rewrite !orb_true_r.
Qed.

Lemma endswith_parent_steps k m :
  PyStr.endswith (parent_steps k +:+ m) ".py" = PyStr.endswith m ".py".
Proof.
  induction k as [|k IH]; [done|].
  rewrite parent_steps_split.
  by rewrite (endswith_after_sep ".." _ ".py").
Qed.

Lemma candidate_names_parent_steps k m :
  candidate_names (parent_steps k +:+ m)
  = map (String.append (parent_steps k)) (candidate_names m).
Proof.
  unfold candidate_names. rewrite endswith_parent_steps.
  destruct (PyStr.endswith m ".py"); cbn [negb app map]; [done|].
  by rewrite append_assoc.
Qed.

(** A name written with parent steps, looked up from the directory [cs]. *)
Section explicit.
Variable env : environment.
Variable cs : list string.
Hypothesis Hcwd : env_cwd env = abs_of cs.
Hypothesis Hcs : Forall (λ c, plain_name c = true) cs.

Lemma abspath_parent_steps k r :
  relative r →
  relative (parent_steps k +:+ r) →
  os_path_abspath env (parent_steps k +:+ r) = candidate (ancestor cs k) r.
Proof.
  intros Hr Hr'. unfold os_path_abspath, candidate. rewrite Hcwd.
  rewrite !abspath_abs_of by auto using ancestor_plain.
  by rewrite norm_from_parent_steps.
Qed.

Lemma find_explicit_parent_steps k names :
  (0 < k)%nat →
  (∀ s, PyStr.startswith s "~" = false → env_expanduser env s = s) →
  Forall (λ x, PyStr.contains x "/" = false) names →
  find_explicit env (map (String.append (parent_steps k)) names)
  = first_in_dir env (ancestor cs k) names.
Proof.
  intros Hk Hexp. induction 1 as [|name names Hname _ IH]; [done|].
  cbn [map find_explicit first_in_dir]. rewrite IH.
  rewrite Hexp by by apply parent_steps_no_tilde.
  rewrite endswith_parent_steps.
  unfold os_path_exists, _is_package, os_path_isdir, os_path_exists, accepted.
  pose proof (parent_steps_relative k name Hname) as Hrel.
  assert (os_path_abspath env
            (posixpath.join (parent_steps k +:+ name) "__init__.py")
          = candidate (ancestor cs k) (posixpath.join name "__init__.py")) as Hmark.
  { unfold os_path_abspath, candidate. rewrite Hcwd.
    rewrite !abspath_abs_of
      by auto using ancestor_plain, join_relative, plain_relative.
    by rewrite !norm_from_join, norm_from_parent_steps. }
  rewrite Hmark, abspath_parent_steps by auto using plain_relative.
  destruct (env_fs env (candidate (ancestor cs k) name)) as [[]|];
    destruct (PyStr.endswith name ".py"); cbn [andb orb]; try done;
    by destruct (env_fs env (candidate (ancestor cs k) (posixpath.join name "__init__.py"))).
Qed.

End explicit.

(** X1. A requested name written as one or more parent steps [../]
    followed by a single entry name is looked up in the directory that
    many levels above the working directory and nowhere else: the result
    is the first accepted candidate there, the entry name before the name
    with [.py] appended, or the not-found signal; neither the working
    directory nor any other ancestor is searched, and no round of the
    ancestor walk is needed. *)
Theorem find_locustfile_parent_steps env cs k m fuel :
  env_cwd env = abs_of cs →
  Forall (λ c, plain_name c = true) cs →
  PyStr.contains m "/" = false →
  (0 < k)%nat →
  (∀ s, PyStr.startswith s "~" = false → env_expanduser env s = s) →
  find_locustfile env fuel (parent_steps k +:+ m)
  = Some (first_in_dir env (ancestor cs k) (candidate_names m)).
Proof.
  intros Hcwd Hcs Hm Hk Hexp. unfold find_locustfile.
  pose proof (parent_steps_contains k m Hk) as Hsep.
  apply dirname_sep, String.eqb_neq in Hsep. rewrite Hsep. cbn [negb].
  rewrite candidate_names_parent_steps.
  by rewrite (find_explicit_parent_steps env cs) by auto using candidate_names_no_sep.
Qed.

Lemma find_locustfile_parent_steps_witness :
  find_locustfile (proj_env (flags false false false false false false) ["Foo"] None)
    0 "../tasks"
  = Some (Some "/proj/tasks.py").
Proof.
  apply (find_locustfile_parent_steps
           (proj_env (flags false false false false false false) ["Foo"] None)
           ["proj"; "tests"] 1 "tasks" 0).
  - reflexivity.
  - repeat constructor.
  - reflexivity.
  - lia.
  - reflexivity.
Defined.

Lemma normpath_isabs (s : string) :
  posixpath.isabs s = true → posixpath.isabs (posixpath.normpath s) = true.
Proof.
  destruct s as [|a s]; [done|]. unfold posixpath.isabs at 1. cbn [PyStr.startswith].
  rewrite andb_true_r. intros ->%Ascii.eqb_eq.
  unfold posixpath.normpath. cbn [String.eqb]. cbv zeta.
  replace (PyStr.startswith (String "/" s) "/") with true by reflexivity.
  destruct (_ && _);
    match goal with |- posixpath.isabs (if String.eqb ?p _ then _ else _) = _ =>
      change (String.eqb p EmptyString) with false end; reflexivity.
Qed.

Lemma join_isabs (a b : string) :
  posixpath.isabs a = true → posixpath.isabs (posixpath.join a b) = true.
Proof.
  intros Ha. unfold posixpath.join.
  destruct (PyStr.startswith b "/") eqn:Hb; [exact Hb|].
  destruct a as [|x a]; [done|].
  destruct (_ || _); exact Ha.
Qed.

Lemma abspath_isabs cwd p :
  posixpath.isabs cwd = true → posixpath.isabs (posixpath.abspath cwd p) = true.
Proof.
  intros Hcwd. unfold posixpath.abspath.
  destruct (posixpath.isabs p) eqn:Hp; apply normpath_isabs; [done|].
  by apply join_isabs.
Qed.

Lemma find_explicit_isabs env names p :
  posixpath.isabs (env_cwd env) = true →
  find_explicit env names = Some p → posixpath.isabs p = true.
Proof.
  intros Hcwd. induction names as [|name names IH]; [done|]. cbn [find_explicit].
  destruct (_ && _); [|done]. intros [= <-]. by apply abspath_isabs.
Qed.

Lemma find_in_dir_isabs env path names p :
  posixpath.isabs (env_cwd env) = true →
  find_in_dir env path names = Some p → posixpath.isabs p = true.
Proof.
  intros Hcwd. induction names as [|name names IH]; [done|]. cbn [find_in_dir].
  destruct (_ && _); [|done]. intros [= <-]. by apply abspath_isabs.
Qed.

(** X3. When the working directory is absolute, every path that
    [find_locustfile] returns is absolute. *)
Theorem find_locustfile_found_isabs env fuel n p :
  posixpath.isabs (env_cwd env) = true →
  find_locustfile env fuel n = Some (Some p) →
  posixpath.isabs p = true.
Proof.
  intros Hcwd. unfold find_locustfile. destruct (negb _).
  - intros [= H]. by eapply find_explicit_isabs.
  - generalize ".". induction fuel as [|fuel IH]; intros path; [done|].
    cbn [find_upwards]. destruct (negb _); [|done].
    destruct (find_in_dir env path _) as [q|] eqn:E.
    + intros [= <-]. by eapply find_in_dir_isabs.
    + apply IH.
Qed.

Lemma find_locustfile_found_isabs_witness :
  posixpath.isabs "/proj/tasks.py" = true.
Proof.
  apply (find_locustfile_found_isabs
           (proj_env (flags false false false false false false) ["Foo"] None)
           0 "../tasks.py" "/proj/tasks.py"); reflexivity.
Defined.

(** X4. Started in the root directory, the search for a bare name probes
    nothing and returns the not-found signal, whatever the root holds. *)
Theorem find_locustfile_from_root env fuel n :
  env_cwd env = "/" →
  PyStr.contains n "/" = false →
  (0 < fuel)%nat →
  find_locustfile env fuel n = Some None.
Proof.
  intros Hcwd Hn Hfuel.
  by rewrite (find_locustfile_bare env [] n fuel).
Qed.

Lemma find_locustfile_from_root_witness :
  is_Some (env_fs root_env "/locust.py")
  ∧ find_locustfile root_env 1 "locust" = Some None.
Proof.
  split; [by eexists|].
  apply (find_locustfile_from_root root_env 1 "locust"); [reflexivity..|lia].
Defined.

Lemma first_in_dir_skip env dir n names :
  accepted env dir n = false →
  first_in_dir env dir (n :: names) = first_in_dir env dir names.
Proof. intros H. cbn [first_in_dir]. by rewrite H. Qed.

(** X5. For a bare name that does not end in [.py] and names no package in
    the working directory or above it, asking for the name or for the name
    with [.py] appended gives the same answer. *)
Theorem find_locustfile_suffix_optional env cs n fuel :
  env_cwd env = abs_of cs →
  Forall (λ c, plain_name c = true) cs →
  PyStr.contains n "/" = false →
  PyStr.endswith n ".py" = false →
  (length cs < fuel)%nat →
  Forall (λ dir, accepted env dir n = false) (ancestors cs) →
  find_locustfile env fuel n = find_locustfile env fuel (n +:+ ".py").
Proof.
  intros Hcwd Hcs Hn Hpy Hfuel Hnone.
  assert (PyStr.contains (n +:+ ".py") "/" = false) as Hn'.
  { by rewrite contains_app, Hn. }
  rewrite !(find_locustfile_bare env cs) by done. f_equal.
  unfold candidate_names. rewrite endswith_app, Hpy. cbn [negb app].
  induction Hnone as [|dir dirs Hdir _ IH]; [done|].
  cbn [nearest_first]. by rewrite first_in_dir_skip, IH.
Qed.

Lemma find_locustfile_suffix_optional_witness :
  find_locustfile (proj_env (flags false false false false false false) ["Foo"] None)
    3 "tasks"
  = find_locustfile (proj_env (flags false false false false false false) ["Foo"] None)
      3 "tasks.py".
Proof.
  apply (find_locustfile_suffix_optional
           (proj_env (flags false false false false false false) ["Foo"] None)
           ["proj"; "tests"] "tasks" 3).
  - reflexivity.
  - repeat constructor.
  - reflexivity.
  - reflexivity.
  - simpl. lia.
  - repeat constructor.
Defined.

(** ** [load_locustfile] *)

Lemma py_insert_app_l {A} (i : nat) (x : A) (l e : list A) :
  (i <= length l)%nat → py_insert i x (l ++ e) = py_insert i x l ++ e.
Proof.
  intros Hi. unfold py_insert.
  rewrite take_app_le, drop_app_le by done. by rewrite <- app_assoc.
Qed.

Lemma moved_to_front_length_index d l i :
  py_index d l = Some i → (i + 1 <= length (moved_to_front d l))%nat.
Proof.
  intros Hi. destruct (py_index_Some _ _ _ Hi) as [_ Hlt].
  unfold moved_to_front. rewrite Hi. simpl.
  rewrite length_app, length_take, length_drop. lia.
Qed.

(** X6. When the imported module appends entries to the end of the search
    list, [load_locustfile] still puts the original entries back in their
    places and keeps the appended ones after them. *)
Theorem load_locustfile_keeps_appended env path l tr m extra :
  env_import env (module_name path) (moved_to_front (fst (posixpath.split path)) l)
    = (Ret m, moved_to_front (fst (posixpath.split path)) l ++ extra) →
  load_locustfile env path {| sys_path := l; trace := tr |}
  = (Ret (mod_doc m, catalog env m), {| sys_path := l ++ extra; trace := tr |}).
Proof.
  unfold load_locustfile, module_name, catalog.
  destruct (posixpath.split path) as [d f]. cbn [fst snd].
  intros Himp. run_py.
  case_bool_decide as Hin; cbn [negb]; run_py.
  - apply elem_of_py_index in Hin as [i Hi]. rewrite Hi.
    destruct i as [|i]; cbn [Nat.eqb negb]; run_py.
    + rewrite moved_to_front_first in Himp by done. by rewrite Himp.
    + rewrite moved_to_front_del by done. run_py. rewrite Himp.
      cbn [sys_path trace].
      rewrite py_insert_app_l by by apply moved_to_front_length_index.
      rewrite moved_to_front_restore by done. by rewrite <- app_comm_cons, py_del_0.
  - assert (py_index d l = None) as Hi.
    { destruct (py_index d l) eqn:E; [|done]. exfalso. apply Hin, elem_of_py_index. eauto. }
    rewrite py_insert_0. rewrite moved_to_front_absent in Himp by done.
    rewrite Himp. cbn [sys_path trace]. by rewrite <- app_comm_cons, py_del_0.
Qed.

Lemma load_locustfile_keeps_appended_witness :
  load_locustfile appending_env "/proj/tasks.py"
    {| sys_path := ["/usr/lib"; "/proj"; "/srv"]; trace := [] |}
  = (Ret (None, catalog appending_env tasks_module),
     {| sys_path := ["/usr/lib"; "/proj"; "/srv"; "/proj/lib"]; trace := [] |}).
Proof.
  apply (load_locustfile_keeps_appended appending_env "/proj/tasks.py"
           ["/usr/lib"; "/proj"; "/srv"] [] tasks_module ["/proj/lib"]).
  reflexivity.
Defined.

Lemma load_locustfile_inv env path l tr doc locusts w' :
  load_locustfile env path {| sys_path := l; trace := tr |}
    = (Ret (doc, locusts), w') →
  ∃ m l2,
    env_import env (module_name path) (moved_to_front (fst (posixpath.split path)) l)
      = (Ret m, l2)
    ∧ doc = mod_doc m ∧ locusts = catalog env m.
Proof.
  unfold load_locustfile, module_name, catalog.
  destruct (posixpath.split path) as [d f]. cbn [fst snd]. run_py.
  case_bool_decide as Hin; cbn [negb]; run_py.
  - apply elem_of_py_index in Hin as [i Hi]. rewrite Hi.
    destruct i as [|i]; cbn [Nat.eqb negb]; run_py.
    + rewrite moved_to_front_first by done.
      destruct (env_import env _ _) as [[m| |] l2]; [|done|done].
      intros [= <- <- _]. by eexists _, _.
    + rewrite moved_to_front_del by done. run_py.
      destruct (env_import env _ _) as [[m| |] l2]; [|done|done].
      cbn [sys_path trace]. destruct (py_del _ _); [|done].
      intros [= <- <- _]. by eexists _, _.
  - assert (py_index d l = None) as Hi.
    { destruct (py_index d l) eqn:E; [|done]. exfalso. apply Hin, elem_of_py_index. eauto. }
    rewrite py_insert_0, moved_to_front_absent by done.
    destruct (env_import env _ _) as [[m| |] l2]; [|done|done].
    cbn [sys_path trace]. destruct (py_del _ _); [|done].
    intros [= <- <- _]. by eexists _, _.
Qed.

(** X7. When [load_locustfile] returns, the import has returned a module;
    the first component is the docstring of that module, and the second
    binds a name to a value exactly when the module does, the value is a
    class and a subclass of [Locust], and the name has no leading
    underscore. *)
Theorem load_locustfile_catalog env path l tr doc locusts w' :
  load_locustfile env path {| sys_path := l; trace := tr |}
    = (Ret (doc, locusts), w') →
  ∃ m l2,
    env_import env (module_name path) (moved_to_front (fst (posixpath.split path)) l)
      = (Ret m, l2)
    ∧ doc = mod_doc m
    ∧ ∀ name v,
        locusts !! name = Some v
        ↔ mod_vars m !! name = Some v
          ∧ isclass v = true
          ∧ issubclass v (env_Locust env) = true
          ∧ PyStr.startswith name "_" = false.
Proof.
  intros (m & l2 & Himp & -> & ->)%load_locustfile_inv.
  exists m, l2. split; [done|]. split; [done|].
  intros name v. by rewrite catalog_lookup, is_locust_spec.
Qed.

Lemma load_locustfile_catalog_witness :
  ∃ m l2,
    proj_import (module_name "/proj/tasks.py")
      (moved_to_front (fst (posixpath.split "/proj/tasks.py")) ["/usr/lib"])
      = (Ret m, l2)
    ∧ None = mod_doc m
    ∧ ∀ name v,
        catalog (proj_env (flags false false false false false false) ["Foo"] None)
          tasks_module !! name = Some v
        ↔ mod_vars m !! name = Some v
          ∧ isclass v = true
          ∧ issubclass v Locust = true
          ∧ PyStr.startswith name "_" = false.
Proof.
  apply (load_locustfile_catalog
           (proj_env (flags false false false false false false) ["Foo"] None)
           "/proj/tasks.py" ["/usr/lib"] [] None _
           {| sys_path := ["/usr/lib"]; trace := [] |}).
  vm_compute. reflexivity.
Defined.

Lemma py_index_first d l i : py_index d l = Some i → d ∉ take i l.
Proof.
  revert i. induction l as [|y l IH]; intros i; simpl; [done|].
  destruct (String.eqb_spec y d) as [->|Hne].
  - intros [= <-]. apply not_elem_of_nil.
  - destruct (py_index d l) as [j|]; [|done]. intros [= <-]. simpl.
    apply not_elem_of_cons. split; [congruence|by apply IH].
Qed.

(** X8. The import runs with the directory of the locustfile as the
    first entry of the search list, followed by the other entries in their
    order, the first occurrence of the directory taken out: an error of the
    import at that list is the error of [load_locustfile], and a load that
    returns has imported at that list. *)
Theorem import_sees_directory_first env path l tr :
  let d := fst (posixpath.split path) in
  ∃ rest,
    (((d ∉ l) ∧ rest = l)
     ∨ (∃ l1 l2, l = l1 ++ d :: l2 ∧ (d ∉ l1) ∧ rest = l1 ++ l2))
    ∧ (∀ e l',
         env_import env (module_name path) (d :: rest) = (Raise e, l') →
         load_locustfile env path {| sys_path := l; trace := tr |}
         = (Raise e, {| sys_path := l'; trace := tr |}))
    ∧ (∀ doc locusts w',
         load_locustfile env path {| sys_path := l; trace := tr |}
           = (Ret (doc, locusts), w') →
         ∃ m l', env_import env (module_name path) (d :: rest) = (Ret m, l')).
Proof.
  intros d.
  exists (match py_index d l with
          | Some i => take i l ++ drop (S i) l
          | None => l
          end).
  change (d :: match py_index d l with
               | Some i => take i l ++ drop (S i) l
               | None => l
               end) with (moved_to_front d l).
  split; [|split].
  - destruct (py_index d l) as [i|] eqn:Hi.
    + right. exists (take i l), (drop (S i) l).
      destruct (py_index_Some _ _ _ Hi) as [Heq _].
      split; [done|]. split; [by apply py_index_first|done].
    + left. split; [by apply py_index_None|done].
  - intros e l' Himp. by apply load_locustfile_import_fails.
  - intros doc locusts w' Hload.
    destruct (load_locustfile_inv _ _ _ _ _ _ _ Hload) as (m & l' & Himp & _).
    by exists m, l'.
Qed.

Lemma import_sees_directory_first_witness :
  ∃ rest,
    ((("/proj" ∉ ["/usr/lib"; "/proj"; "/srv"]) ∧ rest = ["/usr/lib"; "/proj"; "/srv"])
     ∨ (∃ l1 l2, ["/usr/lib"; "/proj"; "/srv"] = l1 ++ "/proj" :: l2
                 ∧ ("/proj" ∉ l1) ∧ rest = l1 ++ l2))
    ∧ (∀ e l',
         broken_import (module_name "/proj/tasks.py") ("/proj" :: rest) = (Raise e, l') →
         load_locustfile broken_env "/proj/tasks.py"
           {| sys_path := ["/usr/lib"; "/proj"; "/srv"]; trace := [] |}
         = (Raise e, {| sys_path := l'; trace := [] |}))
    ∧ (∀ doc locusts w',
         load_locustfile broken_env "/proj/tasks.py"
           {| sys_path := ["/usr/lib"; "/proj"; "/srv"]; trace := [] |}
           = (Ret (doc, locusts), w') →
         ∃ m l', broken_import (module_name "/proj/tasks.py") ("/proj" :: rest)
                 = (Ret m, l')).
Proof.
  exact (import_sees_directory_first broken_env "/proj/tasks.py"
           ["/usr/lib"; "/proj"; "/srv"] []).
Defined.

(** ** [main] *)

(** X9. With [-V] the launcher prints its version and exits with status
    zero; no locustfile is looked for or imported and nothing is started,
    whatever the other options are. *)
Theorem version_short_circuit env fuel path0 :
  show_version (env_options env) = true →
  launch env fuel path0
  = (Exited 0,
     {| sys_path := path0; trace := [Print EmptyString; Print "Locust 0.1"] |}).
Proof. intros Hv. unfold launch, run, main. run_py. by rewrite Hv. Qed.

Lemma version_short_circuit_witness :
  launch {| env_cwd := "/nowhere"; env_fs := λ _, None; env_expanduser := λ name, name;
            env_import := broken_import; env_Locust := Locust;
            env_options := {| show_version := true; list_commands := true;
                              shortlist := false; print_stats := false; no_web := false;
                              master := true; slave := true; num_clients := 1;
                              hatch_rate := 1; redis_host := "localhost";
                              redis_port := 6379; hosts := None;
                              locustfile := "missing" |};
            env_arguments := []; env_interrupt := None |}
         0 ["/usr/lib"]
  = (Exited 0,
     {| sys_path := ["/usr/lib"]; trace := [Print EmptyString; Print "Locust 0.1"] |}).
Proof. apply version_short_circuit. reflexivity. Defined.

(** X10. When no locustfile is found the launcher prints
    [Could not find any locustfile!] and exits with status one; the search
    list is untouched and nothing is imported or started. *)
Theorem locustfile_not_found env fuel path0 :
  show_version (env_options env) = false →
  find_locustfile env fuel (locustfile (env_options env)) = Some None →
  launch env fuel path0
  = (Exited 1,
     {| sys_path := path0;
        trace := [Print EmptyString; Print "Could not find any locustfile!"] |}).
Proof.
  intros Hv Hfind. unfold launch, run, main. run_py. by rewrite Hv, Hfind.
Qed.

Lemma locustfile_not_found_witness :
  launch root_env 1 ["/usr/lib"]
  = (Exited 1,
     {| sys_path := ["/usr/lib"];
        trace := [Print EmptyString; Print "Could not find any locustfile!"] |}).
Proof. apply locustfile_not_found; reflexivity. Defined.

(** X11. An exception of [load_locustfile] ends the run before anything
    but the opening line is printed: a traceback of that exception, or the
    exit status of a [SystemExit] raised by the locustfile. *)
Theorem import_error_is_fatal env fuel path0 p e w2 :
  show_version (env_options env) = false →
  find_locustfile env fuel (locustfile (env_options env)) = Some (Some p) →
  load_locustfile env p (started {| sys_path := path0; trace := [] |}) = (Raise e, w2) →
  launch env fuel path0
  = (uncaught e, {| sys_path := sys_path w2; trace := [Print EmptyString] |}).
Proof.
  intros Hv Hfind Hload.
  pose proof (find_locustfile_not_empty _ _ _ _ Hfind) as Hp.
  pose proof (load_locustfile_trace env p (started {| sys_path := path0; trace := [] |}))
    as Htr. rewrite Hload in Htr. cbn in Htr.
  unfold started in Hload. cbn [sys_path trace] in Hload.
  unfold launch, run, main. run_py. rewrite Hv, Hfind. run_py.
  apply String.eqb_neq in Hp. rewrite Hp. cbn [negb]. run_py.
  rewrite Hload. destruct w2 as [l2 tr2]. cbn in Htr. subst tr2.
  by destruct e.
Qed.

Lemma import_error_is_fatal_witness :
  launch broken_env 3 ["/usr/lib"]
  = (Traceback (OtherError "NameError"),
     {| sys_path := ["/proj"; "/usr/lib"]; trace := [Print EmptyString] |}).
Proof.
  apply (import_error_is_fatal broken_env 3 ["/usr/lib"] "/proj/tasks.py"
           (OtherError "NameError")
           {| sys_path := ["/proj"; "/usr/lib"]; trace := [Print EmptyString] |});
    reflexivity.
Defined.

Lemma selected_list_commands env fuel w :
  list_commands (env_options env) = true → selected env fuel w = None.
Proof.
  intros Hl. unfold selected.
  destruct (show_version _); [done|].
  destruct (find_locustfile env fuel _) as [[p|]|]; [|done|done].
  destruct (String.eqb p EmptyString); [done|].
  destruct (load_locustfile env p (started w)) as [[[doc locusts]| |] w']; [|done|done].
  by rewrite Hl.
Qed.

Lemma launch_unselected_outputs env fuel path0 :
  selected env fuel {| sys_path := path0; trace := [] |} = None →
  Forall (λ e, is_output e = true) (trace (snd (launch env fuel path0))).
Proof.
  intros Hsel. unfold launch. rewrite run_trace.
  by destruct (main_unselected_trace _ _ _ Hsel) as (outs & -> & Houts).
Qed.

(** X12. With [--list] nothing is ever started; once the locustfile is
    found and loaded, the launcher prints the heading and every name of
    the catalog exactly once, and exits with status zero. *)
Theorem list_prints_each_name_once env fuel path0 :
  list_commands (env_options env) = true →
  Forall (λ e, is_output e = true) (trace (snd (launch env fuel path0)))
  ∧ ∀ p doc locusts w2,
      show_version (env_options env) = false →
      find_locustfile env fuel (locustfile (env_options env)) = Some (Some p) →
      load_locustfile env p (started {| sys_path := path0; trace := [] |})
        = (Ret (doc, locusts), w2) →
      ∃ names,
        launch env fuel path0
        = (Exited 0,
           {| sys_path := sys_path w2;
              trace :=
                Print EmptyString
                :: Print "Available Locusts:"
                :: map (λ name, Print ("    " +:+ name)) names |})
        ∧ NoDup names
        ∧ ∀ name, name ∈ names ↔ is_Some (locusts !! name).
Proof.
  intros Hl. split.
  { by apply launch_unselected_outputs, selected_list_commands. }
  intros p doc locusts w2 Hv Hfind Hload.
  pose proof (find_locustfile_not_empty _ _ _ _ Hfind) as Hp.
  exists (map fst (map_to_list locusts)). split; [|split].
  - by eapply list_commands_prints_catalog.
  - apply NoDup_fst_map_to_list.
  - intros name. rewrite list_elem_of_fmap. split.
    + intros ([k v] & -> & Hin). apply elem_of_map_to_list in Hin. by eexists.
    + intros [v Hv']. exists (name, v). split; [done|]. by apply elem_of_map_to_list.
Qed.

Lemma list_prints_each_name_once_witness :
  ∃ names,
    launch (proj_env (flags true false false false false false) [] None) 3 ["/usr/lib"]
    = (Exited 0,
       {| sys_path := ["/usr/lib"];
          trace :=
            Print EmptyString
            :: Print "Available Locusts:"
            :: map (λ name, Print ("    " +:+ name)) names |})
    ∧ NoDup names
    ∧ ∀ name, name ∈ names
        ↔ is_Some (catalog (proj_env (flags true false false false false false) [] None)
                     tasks_module !! name).
Proof.
  apply (proj2 (list_prints_each_name_once
                  (proj_env (flags true false false false false false) [] None)
                  3 ["/usr/lib"] eq_refl)
               "/proj/tasks.py" None _
               {| sys_path := ["/usr/lib"]; trace := [Print EmptyString] |}).
  - reflexivity.
  - reflexivity.
  - vm_compute. reflexivity.
Defined.

(** X13. A first argument that is not in the catalog is reported on the
    error stream as [Unknown Locust: <name>] and the run exits with status
    one, before any runner or background activity; further arguments are
    not looked at. *)
Theorem unknown_scenario_exits_one env fuel path0 p doc locusts w2 a args :
  show_version (env_options env) = false →
  list_commands (env_options env) = false →
  find_locustfile env fuel (locustfile (env_options env)) = Some (Some p) →
  load_locustfile env p (started {| sys_path := path0; trace := [] |})
    = (Ret (doc, locusts), w2) →
  env_arguments env = a :: args →
  locusts !! a = None →
  launch env fuel path0
  = (Exited 1,
     {| sys_path := sys_path w2;
        trace := [Print EmptyString;
                  StderrWrite ("Unknown Locust: " +:+ a +:+ newline)] |}).
Proof.
  intros Hv Hl Hfind Hload Hargs Hlook.
  pose proof (find_locustfile_not_empty _ _ _ _ Hfind) as Hp.
  by eapply unknown_scenario_is_reported.
Qed.

Lemma unknown_scenario_exits_one_witness :
  launch (proj_env (flags false false false false false false) ["_Bar"; "Foo"] None)
         3 ["/usr/lib"]
  = (Exited 1,
     {| sys_path := ["/usr/lib"];
        trace := [Print EmptyString;
                  StderrWrite ("Unknown Locust: " +:+ "_Bar" +:+ newline)] |}).
Proof.
  apply (unknown_scenario_exits_one
           (proj_env (flags false false false false false false) ["_Bar"; "Foo"] None)
           3 ["/usr/lib"] "/proj/tasks.py" None
           (catalog (proj_env (flags false false false false false false) ["_Bar"; "Foo"] None)
              tasks_module)
           {| sys_path := ["/usr/lib"]; trace := [Print EmptyString] |} "_Bar" ["Foo"]);
    reflexivity.
Defined.

Lemma filter_runner_outputs (outs : list event) :
  Forall (λ e, is_output e = true) outs → List.filter is_runner outs = [].
Proof.
  induction 1 as [|e outs He _ IH]; [done|]. cbn [List.filter].
  rewrite IH. by destruct e.
Qed.

Lemma filter_runner_bootstrap env cls :
  length (List.filter is_runner (bootstrap_events env cls)) = 1%nat.
Proof.
  unfold bootstrap_events, web_events, runner_events, wait_events, farewell.
  destruct (no_web (env_options env)), (slave (env_options env)),
    (master (env_options env)), (print_stats (env_options env)), (interrupted env);
    reflexivity.
Qed.

(** X14. A run constructs exactly one runner when it gets to the
    bootstrap and none otherwise. *)
Theorem one_runner_per_run env fuel path0 :
  length (List.filter is_runner (trace (snd (launch env fuel path0))))
  = match selected env fuel {| sys_path := path0; trace := [] |} with
    | Some _ => 1%nat
    | None => 0%nat
    end.
Proof.
  destruct (selected env fuel _) as [[cls w2]|] eqn:Hsel.
  - rewrite (launch_selected _ _ _ _ _ Hsel). cbn [snd trace List.filter is_runner].
    apply filter_runner_bootstrap.
  - by rewrite filter_runner_outputs by by apply launch_unselected_outputs.
Qed.

(** X15. With [--slave] the web monitor is never started, whatever the
    other options are. *)
Theorem slave_never_starts_web env fuel path0 :
  slave (env_options env) = true →
  Forall (λ e, is_web e = false) (trace (snd (launch env fuel path0))).
Proof.
  intros Hs. eapply Forall_impl.
  - apply (launch_events (λ e, negb (is_web e))).
    + by intros [].
    + intros cls. unfold bootstrap_events, web_events, runner_events, wait_events,
        farewell. rewrite Hs.
      destruct (no_web (env_options env)), (master (env_options env)),
        (print_stats (env_options env)), (interrupted env); reflexivity.
  - intros e He. by apply negb_true_iff.
Qed.

Lemma slave_never_starts_web_witness :
  Forall (λ e, is_web e = false)
    (trace (snd (launch (proj_env (flags false false false false false true) ["Foo"] None)
                        3 ["/usr/lib"]))).
Proof.
  apply (slave_never_starts_web
           (proj_env (flags false false false false false true) ["Foo"] None)).
  reflexivity.
Defined.

(** X16. The launcher itself triggers hatching only in the standalone
    topology with [--no-web]. *)
Theorem hatching_only_standalone_no_web env fuel path0 :
  StartHatching ∈ trace (snd (launch env fuel path0)) →
  master (env_options env) = false
  ∧ slave (env_options env) = false
  ∧ no_web (env_options env) = true.
Proof.
  intros Hin.
  pose (P := λ e, negb (is_hatching e)
                  || (negb (master (env_options env)) && negb (slave (env_options env))
                      && no_web (env_options env))).
  assert (Forall (λ e, P e = true) (trace (snd (launch env fuel path0)))) as Hall.
  { apply launch_events.
    - by intros [].
    - intros cls. unfold P, bootstrap_events, web_events, runner_events, wait_events,
        farewell.
      destruct (no_web (env_options env)), (slave (env_options env)),
        (master (env_options env)), (print_stats (env_options env)), (interrupted env);
        reflexivity. }
  rewrite Forall_forall in Hall. specialize (Hall _ Hin). unfold P in Hall.
  cbn in Hall. apply andb_true_iff in Hall as [[Hm Hs]%andb_true_iff Hw].
  by apply negb_true_iff in Hm, Hs.
Qed.

Lemma hatching_only_standalone_no_web_witness :
  master (flags false false false true false false) = false
  ∧ slave (flags false false false true false false) = false
  ∧ no_web (flags false false false true false false) = true.
Proof.
  apply (hatching_only_standalone_no_web
           (proj_env (flags false false false true false false) ["Foo"] None)
           3 ["/usr/lib"]).
  vm_compute. do 2 right. left.
Defined.

(** X17. With [--master] and without [--slave], a run that gets to the
    bootstrap starts the web monitor unless [--no-web] is set, constructs
    the master runner with the redis host and port, and waits; it triggers
    no hatching and starts no stats task. *)
Theorem master_topology env fuel path0 cls w2 :
  master (env_options env) = true →
  slave (env_options env) = false →
  selected env fuel {| sys_path := path0; trace := [] |} = Some (cls, w2) →
  launch env fuel path0
  = (Exited 0,
     {| sys_path := sys_path w2;
        trace :=
          Print EmptyString
          :: (if no_web (env_options env) then []
              else [SpawnWeb cls (hatch_rate (env_options env))
                      (num_clients (env_options env))])
          ++ NewMasterLocustRunner cls
               (hatch_rate (env_options env)) (num_clients (env_options env))
               (redis_host (env_options env)) (redis_port (env_options env))
          :: wait_events env |}).
Proof.
  intros Hm Hs Hsel. rewrite (launch_selected _ _ _ _ _ Hsel).
  unfold bootstrap_events, web_events, runner_events. rewrite Hm, Hs.
  by destruct (no_web (env_options env)).
Qed.

Lemma master_topology_witness :
  launch (proj_env (flags false false true false true false) ["Foo"] None) 3 ["/usr/lib"]
  = (Exited 0,
     {| sys_path := ["/usr/lib"];
        trace := [Print EmptyString; SpawnWeb (VClass Foo) 1 1;
                  NewMasterLocustRunner (VClass Foo) 1 1 "localhost" 6379;
                  Sleep 100000] |}).
Proof.
  apply (master_topology
           (proj_env (flags false false true false true false) ["Foo"] None)
           3 ["/usr/lib"] (VClass Foo)
           {| sys_path := ["/usr/lib"]; trace := [Print EmptyString] |});
    reflexivity.
Defined.

(** X18. With [--slave] and without [--master], a run that gets to the
    bootstrap constructs the slave runner with the redis host and port and
    waits; it starts neither the web monitor nor the stats task and
    triggers no hatching. *)
Theorem slave_topology env fuel path0 cls w2 :
  master (env_options env) = false →
  slave (env_options env) = true →
  selected env fuel {| sys_path := path0; trace := [] |} = Some (cls, w2) →
  launch env fuel path0
  = (Exited 0,
     {| sys_path := sys_path w2;
        trace :=
          Print EmptyString
          :: NewSlaveLocustRunner cls
               (hatch_rate (env_options env)) (num_clients (env_options env))
               (redis_host (env_options env)) (redis_port (env_options env))
          :: wait_events env |}).
Proof.
  intros Hm Hs Hsel. rewrite (launch_selected _ _ _ _ _ Hsel).
  unfold bootstrap_events, web_events, runner_events. rewrite Hm, Hs.
  by rewrite andb_false_r.
Qed.

Lemma slave_topology_witness :
  launch (proj_env (flags false false true false false true) ["Foo"] None) 3 ["/usr/lib"]
  = (Exited 0,
     {| sys_path := ["/usr/lib"];
        trace := [Print EmptyString;
                  NewSlaveLocustRunner (VClass Foo) 1 1 "localhost" 6379;
                  Sleep 100000] |}).
Proof.
  apply (slave_topology
           (proj_env (flags false false true false false true) ["Foo"] None)
           3 ["/usr/lib"] (VClass Foo)
           {| sys_path := ["/usr/lib"]; trace := [Print EmptyString] |});
    reflexivity.
Defined.

(** X19. In the standalone topology with the web monitor, a run that gets
    to the bootstrap starts the monitor, constructs the local runner, and
    starts the stats task exactly when [--print-stats] is set; it does not
    trigger hatching itself. *)
Theorem standalone_with_web env fuel path0 cls w2 :
  master (env_options env) = false →
  slave (env_options env) = false →
  no_web (env_options env) = false →
  selected env fuel {| sys_path := path0; trace := [] |} = Some (cls, w2) →
  launch env fuel path0
  = (Exited 0,
     {| sys_path := sys_path w2;
        trace :=
          Print EmptyString
          :: SpawnWeb cls (hatch_rate (env_options env)) (num_clients (env_options env))
          :: NewLocalLocustRunner cls
               (hatch_rate (env_options env)) (num_clients (env_options env))
          :: (if print_stats (env_options env) then [SpawnPrintStats] else [])
          ++ wait_events env |}).
Proof.
  intros Hm Hs Hw Hsel. rewrite (launch_selected _ _ _ _ _ Hsel).
  unfold bootstrap_events, web_events, runner_events. rewrite Hm, Hs, Hw.
  cbn [negb andb orb app]. by rewrite orb_false_r.
Qed.

Lemma standalone_with_web_witness :
  launch (proj_env (flags false false true false false false) ["Foo"] None) 3 ["/usr/lib"]
  = (Exited 0,
     {| sys_path := ["/usr/lib"];
        trace := [Print EmptyString; SpawnWeb (VClass Foo) 1 1;
                  NewLocalLocustRunner (VClass Foo) 1 1; SpawnPrintStats;
                  Sleep 100000] |}).
Proof.
  apply (standalone_with_web
           (proj_env (flags false false true false false false) ["Foo"] None)
           3 ["/usr/lib"] (VClass Foo)
           {| sys_path := ["/usr/lib"]; trace := [Print EmptyString] |});
    reflexivity.
Defined.

Lemma find_locustfile_answers env cs n fuel :
  env_cwd env = abs_of cs →
  Forall (λ c, plain_name c = true) cs →
  (length cs < fuel)%nat →
  find_locustfile env fuel n ≠ None.
Proof.
  intros Hcwd Hcs Hfuel.
  destruct (PyStr.contains n "/") eqn:Hn.
  - unfold find_locustfile. apply dirname_sep, String.eqb_neq in Hn. by rewrite Hn.
  - by rewrite (find_locustfile_bare env cs).
Qed.

Lemma load_locustfile_answers env path w :
  (∀ name l, fst (env_import env name l) ≠ OutOfFuel) →
  fst (load_locustfile env path w) ≠ OutOfFuel.
Proof.
  intros Himp. unfold load_locustfile.
  destruct (posixpath.split path) as [d f]. destruct w as [l tr]. run_py.
  case_bool_decide as Hin; cbn [negb]; run_py.
  - destruct (py_index d l) as [i|]; [|done].
    destruct i as [|i]; cbn [Nat.eqb negb]; run_py.
    + pose proof (Himp (fst (posixpath.splitext f)) l) as H.
      destruct (env_import env _ _) as [[m| |] l2]; done.
    + destruct (py_del _ _) as [l1|]; [|done]. cbn [sys_path trace].
      pose proof (Himp (fst (posixpath.splitext f)) l1) as H.
      destruct (env_import env _ _) as [[m| |] l2]; try done.
      cbn [sys_path trace]. by destruct (py_del _ _).
  - pose proof (Himp (fst (posixpath.splitext f)) (py_insert 0 d l)) as H.
    destruct (env_import env _ _) as [[m| |] l2]; try done.
    cbn [sys_path trace]. by destruct (py_del _ _).
Qed.

(** X20. Started in a directory of depth below the fuel, with an import
    that answers, every run of the launcher ends: in an exit or in a
    traceback. *)
Theorem launch_ends env cs fuel path0 :
  env_cwd env = abs_of cs →
  Forall (λ c, plain_name c = true) cs →
  (length cs < fuel)%nat →
  (∀ name l, fst (env_import env name l) ≠ OutOfFuel) →
  fst (launch env fuel path0) ≠ NoAnswer.
Proof.
  intros Hcwd Hcs Hfuel Himp.
  destruct (selected env fuel {| sys_path := path0; trace := [] |})
    as [[cls w2]|] eqn:Hsel.
  { by rewrite (launch_selected _ _ _ _ _ Hsel). }
  pose proof (find_locustfile_answers env cs (locustfile (env_options env)) fuel
                Hcwd Hcs Hfuel) as Hfind.
  unfold launch, run, main. run_py.
  destruct (show_version (env_options env)); [done|].
  destruct (find_locustfile env fuel _) as [[p|]|]; [|done|done]. run_py.
  destruct (String.eqb p EmptyString); cbn [negb]; run_py; [done|].
  pose proof (load_locustfile_answers env p
                {| sys_path := path0; trace := [] ++ [Print EmptyString] |} Himp) as Hload.
  destruct (load_locustfile env p _) as [[[doc locusts]|e|] w']; cbn [fst] in Hload;
    [|by destruct e|done].
  destruct (list_commands (env_options env)); run_py.
  { by rewrite print_names_run. }
  destruct (env_arguments env) as [|a args]; cbn [lookup list_lookup]; run_py; [done|].
  destruct (locusts !! a) as [c|]; run_py; [|done].
  by rewrite main_bootstrap_run.
Qed.

Lemma launch_ends_witness :
  fst (launch (proj_env (flags false false false false false false) ["Foo"] None)
              3 ["/usr/lib"]) ≠ NoAnswer.
Proof.
  apply (launch_ends (proj_env (flags false false false false false false) ["Foo"] None)
           ["proj"; "tests"]).
  - reflexivity.
  - repeat constructor.
  - simpl. lia.
  - intros name l. cbn [env_import proj_env]. unfold proj_import.
    by destruct (_ && _).
Defined.
